(** * The rendering core of the [o] editor, embedded in Rocq

    Shallow embedding of the line store and coordinate model of
    [v2/editor.go], of the lexical predicates and the render loop of the
    earlier [WriteLines] (the one that calls [SingleLineComment] and its
    siblings directly) and of the current [WriteLines] of [highlight.go].

    Conventions.
    - A Go [int] is a [Z] reduced with [int64]; a [uint] is a [Z] reduced
      with [uint64].
    - A [rune] is a [Z].  A Go string is kept as the sequence of its code
      points ([text]): every string the modelled code handles is built from a
      rune slice by [Editor.Line] and then only passed through rune-level
      library calls.  Where the source slices a string by bytes ([ChopLine])
      the UTF-8 bytes are written out.
    - [map[int][]rune] is a [gmap Z (list rune)].
    - The canvas is the sequence of write operations performed on it. *)

From Stdlib Require Import ZArith List Bool Lia Ascii String.
From stdpp Require Import gmap list.

Local Open Scope Z_scope.

(** ** Machine integers *)

Module GoInt.

Definition int64 (z : Z) : Z := (z + 2 ^ 63) mod 2 ^ 64 - 2 ^ 63.
Definition uint64 (z : Z) : Z := z mod 2 ^ 64.

Definition maxInt : Z := 2 ^ 63 - 1.
Definition minInt : Z := - 2 ^ 63.

Definition inInt (z : Z) : Prop := minInt <= z <= maxInt.

Lemma int64_id z : inInt z -> int64 z = z.
Proof.
  unfold inInt, minInt, maxInt, int64. intros H.
  rewrite Z.mod_small; lia.
Qed.

Lemma int64_range z : inInt (int64 z).
Proof.
  unfold inInt, minInt, maxInt, int64.
  pose proof (Z.mod_pos_bound (z + 2 ^ 63) (2 ^ 64) ltac:(lia)). lia.
Qed.

(** [int64] is computed modulo [2 ^ 64]: inner reductions can be dropped. *)
Lemma int64_congr a b : a mod 2 ^ 64 = b mod 2 ^ 64 -> int64 a = int64 b.
Proof.
  intros H. unfold int64. f_equal.
  rewrite (Z.add_mod a), (Z.add_mod b), H by lia. reflexivity.
Qed.

Lemma int64_mod z : int64 z mod 2 ^ 64 = z mod 2 ^ 64.
Proof.
  unfold int64.
  rewrite Zminus_mod, Z.mod_mod, <- Zminus_mod by lia.
  f_equal. lia.
Qed.

Lemma int64_add_l a b : int64 (int64 a + b) = int64 (a + b).
Proof.
  apply int64_congr.
  rewrite Z.add_mod, int64_mod, <- Z.add_mod by lia. reflexivity.
Qed.

Lemma int64_add_r a b : int64 (a + int64 b) = int64 (a + b).
Proof. rewrite Z.add_comm, int64_add_l. f_equal. lia. Qed.

Lemma int64_mul_l a b : int64 (int64 a * b) = int64 (a * b).
Proof.
  apply int64_congr.
  rewrite Z.mul_mod, int64_mod, <- Z.mul_mod by lia. reflexivity.
Qed.

Lemma int64_mul_r a b : int64 (a * int64 b) = int64 (a * b).
Proof. rewrite Z.mul_comm, int64_mul_l. f_equal. lia. Qed.

Lemma int64_idem a : int64 (int64 a) = int64 a.
Proof. apply int64_id, int64_range. Qed.

Lemma uint64_id z : 0 <= z < 2 ^ 64 -> uint64 z = z.
Proof. intros H. unfold uint64. apply Z.mod_small; lia. Qed.

Lemma uint64_range z : 0 <= uint64 z < 2 ^ 64.
Proof. unfold uint64. apply Z.mod_pos_bound. lia. Qed.

End GoInt.

(** ** Runes and the [strings] / [unicode] calls the source makes *)

Module GoStrings.

Definition rune := Z.
Definition text := list rune.

(** A string literal of the source, as code points (ASCII literals only). *)
Definition lit (s : string) : text :=
  map (fun a => Z.of_N (N_of_ascii a)) (list_ascii_of_string s).

Definition TAB : rune := 9.
Definition SPACE : rune := 32.
Definition DQUOTE : rune := 34.
Definition BACKTICK : rune := 96.

(** [unicode.IsSpace]: the White_Space table. *)
Definition IsSpace (r : rune) : bool :=
  ((9 <=? r) && (r <=? 13)) || (r =? 32) || (r =? 133) || (r =? 160)
  || (r =? 5760) || ((8192 <=? r) && (r <=? 8202))
  || (r =? 8232) || (r =? 8233) || (r =? 8239) || (r =? 8287) || (r =? 12288).

Fixpoint HasPrefix (s prefix : text) {struct prefix} : bool :=
  match prefix, s with
  | [], _ => true
  | _ :: _, [] => false
  | p :: prefix', c :: s' => (c =? p) && HasPrefix s' prefix'
  end.

Definition HasSuffix (s suffix : text) : bool :=
  HasPrefix (rev s) (rev suffix).

Fixpoint Contains (s substr : text) : bool :=
  HasPrefix s substr ||
  match s with
  | [] => false
  | _ :: s' => Contains s' substr
  end.

(** [strings.Count]: non-overlapping instances, scanned from the left;
    [skip] is the number of runes still covered by the last instance. *)
Fixpoint countFrom (skip : nat) (s substr : text) : Z :=
  match s with
  | [] => 0
  | _ :: s' =>
      match skip with
      | S k => countFrom k s' substr
      | O => if HasPrefix s substr
             then 1 + countFrom (length substr - 1) s' substr
             else countFrom 0 s' substr
      end
  end.

Definition Count (s substr : text) : Z :=
  match substr with
  | [] => Z.of_nat (length s) + 1
  | _ => countFrom 0 s substr
  end.

Fixpoint TrimLeftFunc (s : text) (f : rune -> bool) : text :=
  match s with
  | [] => []
  | c :: s' => if f c then TrimLeftFunc s' f else s
  end.

Definition TrimRightFunc (s : text) (f : rune -> bool) : text :=
  rev (TrimLeftFunc (rev s) f).

Definition TrimSpace (s : text) : text :=
  TrimRightFunc (TrimLeftFunc s IsSpace) IsSpace.

(** [strings.Replace(s, old, new, -1)]: every non-overlapping instance of
    [old], scanned from the left; an empty [old] matches before every rune
    and at the end. *)
Fixpoint replaceFrom (skip : nat) (s old new : text) : text :=
  match s with
  | [] => []
  | c :: s' =>
      match skip with
      | S k => replaceFrom k s' old new
      | O => if HasPrefix s old
             then new ++ replaceFrom (length old - 1) s' old new
             else c :: replaceFrom 0 s' old new
      end
  end.

Definition Replace (s old new : text) : text :=
  match old with
  | [] => flat_map (fun c => new ++ [c]) s ++ new
  | _ => replaceFrom 0 s old new
  end.

(** [strings.SplitN(s, sep, 2)] for a [sep] that occurs in [s]: the parts
    before and after its first instance; [None] when there is none (the
    result has then a single part). *)
Fixpoint cutFirst (s sep : text) : option (text * text) :=
  if HasPrefix s sep then Some ([], drop (length sep) s)
  else match s with
       | [] => None
       | c :: s' =>
           match cutFirst s' sep with
           | Some (before, after) => Some (c :: before, after)
           | None => None
           end
       end.

(** Byte offset of a rune sequence inside a string: used below for
    [strings.LastIndex], which returns the byte index of the last instance
    of [substr], or -1. *)
Fixpoint lastIndexFrom (off : Z) (s substr : text) (best : Z)
    (len1 : rune -> Z) : Z :=
  match s with
  | [] => if HasPrefix [] substr then off else best
  | c :: s' =>
      lastIndexFrom (off + len1 c) s' substr
        (if HasPrefix s substr then off else best) len1
  end.

(** [strings.FieldsFunc(s, f)[0]], when there is a field. *)
Fixpoint takeField (s : text) (f : rune -> bool) : text :=
  match s with
  | [] => []
  | c :: s' => if f c then [] else c :: takeField s' f
  end.

Definition firstField (s : text) (f : rune -> bool) : option text :=
  match TrimLeftFunc s f with
  | [] => None
  | rest => Some (takeField rest f)
  end.

(** [strings.Repeat]; a negative count panics in Go ([None]). *)
Definition Repeat (s : text) (count : Z) : option text :=
  if count <? 0 then None
  else Some (concat (replicate (Z.to_nat count) s)).

(** *** UTF-8 *)

Definition bytes := list Z.

Definition RuneError : rune := 65533.

(** A rune that [utf8.EncodeRune] encodes as itself: not negative, not a
    surrogate, at most U+10FFFF. *)
Definition validRune (r : rune) : bool :=
  (0 <=? r) && (r <=? 1114111) && negb ((55296 <=? r) && (r <=? 57343)).

(** The rune read back from [string(r)]: [RuneError] for an invalid one. *)
Definition toValid (r : rune) : rune := if validRune r then r else RuneError.

(** [utf8.EncodeRune] of a valid rune. *)
Definition encodeValid (r : rune) : bytes :=
  if r <? 128 then [r]
  else if r <? 2048 then [192 + r / 64; 128 + r mod 64]
  else if r <? 65536 then [224 + r / 4096; 128 + (r / 64) mod 64; 128 + r mod 64]
  else [240 + r / 262144; 128 + (r / 4096) mod 64; 128 + (r / 64) mod 64; 128 + r mod 64].

Definition encodeRune (r : rune) : bytes := encodeValid (toValid r).

(** The bytes of a string given by its code points. *)
Definition encode (s : text) : bytes := flat_map encodeRune s.

(** [len(string(r))]. *)
Definition utf8Len (r : rune) : Z := Z.of_nat (length (encodeRune r)).

(** [len(s)] of a string given by its code points. *)
Definition byteLen (s : text) : Z := Z.of_nat (length (encode s)).

(** [strings.LastIndex]. *)
Definition LastIndex (s substr : text) : Z :=
  lastIndexFrom 0 s substr (-1) utf8Len.

(** The number of bytes that the decoder of [utf8.RuneCountInString]
    consumes at the head of [b]: 1 for an ASCII byte and for every invalid
    or short sequence, else the size of the sequence, after the table
    [first] and the accept ranges of package [utf8]. *)
Definition inRange (lo hi c : Z) : bool := (lo <=? c) && (c <=? hi).

Definition continuation (c : Z) : bool := inRange 128 191 c.

Definition decodeSize (b : bytes) : nat :=
  match b with
  | [] => 0%nat
  | c :: rest =>
      if c <? 128 then 1%nat
      else if inRange 194 223 c then
        match rest with
        | c1 :: _ => if continuation c1 then 2%nat else 1%nat
        | _ => 1%nat
        end
      else if inRange 224 239 c then
        match rest with
        | c1 :: c2 :: _ =>
            let lo := if c =? 224 then 160 else 128 in
            let hi := if c =? 237 then 159 else 191 in
            if negb (inRange lo hi c1) then 1%nat
            else if negb (continuation c2) then 1%nat
            else 3%nat
        | _ => 1%nat
        end
      else if inRange 240 244 c then
        match rest with
        | c1 :: c2 :: c3 :: _ =>
            let lo := if c =? 240 then 144 else 128 in
            let hi := if c =? 244 then 143 else 191 in
            if negb (inRange lo hi c1) then 1%nat
            else if negb (continuation c2) then 1%nat
            else if negb (continuation c3) then 1%nat
            else 4%nat
        | _ => 1%nat
        end
      else 1%nat
  end.

(** [utf8.RuneCountInString] / [len([]rune(s))] on bytes; [skip] counts the
    bytes still covered by the sequence decoded last. *)
Fixpoint runeCountFrom (skip : nat) (b : bytes) : Z :=
  match b with
  | [] => 0
  | _ :: b' =>
      match skip with
      | S k => runeCountFrom k b'
      | O => 1 + runeCountFrom (decodeSize b - 1) b'
      end
  end.

Definition runeCount (b : bytes) : Z := runeCountFrom 0 b.

End GoStrings.

(** ** Line store and coordinates ([v2/editor.go], [v2/position.go]) *)

Module Ed.
Import GoInt GoStrings.

(** [mode.Mode]: the modes the modelled code tests for; every other mode of
    the external package is [OtherMode]. *)
Inductive Mode :=
| Markdown | Python | Lisp | Clojure | Vim | Git | ManPage
| Config | Shell | CMake | JSON | StandardML | OCaml | Zig | Bat
| SQL | Lua | Haskell | Ada | Amber | Nroff | HTML | XML
| OtherMode (tag : Z).

Definition Mode_eqb (a b : Mode) : bool :=
  match a, b with
  | Markdown, Markdown | Python, Python | Lisp, Lisp | Clojure, Clojure
  | Vim, Vim | Git, Git | ManPage, ManPage | Config, Config | Shell, Shell
  | CMake, CMake | JSON, JSON | StandardML, StandardML | OCaml, OCaml
  | Zig, Zig | Bat, Bat | SQL, SQL | Lua, Lua | Haskell, Haskell | Ada, Ada
  | Amber, Amber | Nroff, Nroff | HTML, HTML | XML, XML => true
  | OtherMode x, OtherMode y => x =? y
  | _, _ => false
  end.

(** [vt100.AttributeColor], an opaque color code. *)
Definition AttributeColor := Z.

(** [mode.TabsSpaces]. *)
Record TabsSpaces := { PerTab : Z; Spaces : bool }.

(** [Position] of [v2/position.go]. *)
Record Position := {
  sx : Z; sy : Z; offsetX : Z; offsetY : Z; scrollSpeed : Z; savedX : Z
}.

(** The fields of [Editor] (with the embedded [Theme]) that the modelled
    functions read.  [highlight.go] calls [indentation] [tabsSpaces]. *)
Record Editor := {
  lines : gmap Z (list rune);
  searchTerm : text;
  Foreground : AttributeColor;
  Background : AttributeColor;
  SearchHighlight : AttributeColor;
  pos : Position;
  indentation : TabsSpaces;
  mode : Mode;
  rainbowParenthesis : bool;
  syntaxHighlight : bool
}.

(** [e.lines[n]]: the rune slice stored at [n], nil for a missing key. *)
Definition linesAt (e : Editor) (n : Z) : list rune :=
  match lines e !! n with
  | Some line => line
  | None => []
  end.

(** [Line]: the contents of line [n], the empty string for a missing key.
    [sb.WriteRune] writes U+FFFD for a rune that is not valid. *)
Definition Line (e : Editor) (n : Z) : text :=
  match lines e !! n with
  | Some line => map toValid line
  | None => []
  end.

(** [CountRune]: the loop [for _, l := range line { if l == r { counter++ } }]. *)
Fixpoint countRunes (r : rune) (line : list rune) (counter : Z) : Z :=
  match line with
  | [] => counter
  | l :: line' => countRunes r line' (if l =? r then int64 (counter + 1) else counter)
  end.

Definition CountRune (e : Editor) (r : rune) (n : Z) : Z :=
  match lines e !! n with
  | Some line => countRunes r line 0
  | None => 0
  end.

(** [utf8.RuneCountInString] of a string built from runes. *)
Definition RuneCountInString (s : text) : Z := Z.of_nat (length s).

Definition LastDataPosition (e : Editor) (n : Z) : Z :=
  int64 (RuneCountInString (Line e n) - 1).

Definition LastScreenPosition (e : Editor) (n : Z) : Z :=
  let extraSpaceBecauseOfTabs :=
    int64 (CountRune e TAB n * int64 (PerTab (indentation e) - 1)) in
  int64 (LastDataPosition e n + extraSpaceBecauseOfTabs).

(** [Len]: the fold over the keys of the map; the order of a Go map range is
    unspecified, [map_fold] visits every key once. *)
Definition lenStep (y : Z) (_ : list rune) (maxy : Z) : Z :=
  if y >? maxy then y else maxy.

Definition Len (e : Editor) : Z :=
  let maxy := map_fold lenStep 0 (lines e) in
  int64 (maxy + 1).

(** The error of [DataX]. *)
Inductive error := ErrPositionAfterData.

(** [DataX]: the loop over the runes of the current line, with the locals
    [screenCounter] and [runeCounter]; the result is the pair the Go
    function returns, the error being [None] for [nil]. *)
Fixpoint dataXLoop (target perTab : Z) (line : list rune)
    (screenCounter runeCounter : Z) : Z * option error :=
  match line with
  | [] => (runeCounter, Some ErrPositionAfterData)
  | r :: line' =>
      if screenCounter =? target then (runeCounter, None)
      else dataXLoop target perTab line'
             (if r =? TAB then int64 (screenCounter + perTab)
              else int64 (screenCounter + 1))
             (int64 (runeCounter + 1))
  end.

Definition DataX (e : Editor) : Z * option error :=
  let dataY := int64 (offsetY (pos e) + sy (pos e)) in
  dataXLoop (int64 (sx (pos e) + offsetX (pos e))) (PerTab (indentation e))
    (linesAt e dataY) 0 0.

(** [DataY]: the line the cursor is on. *)
Definition DataY (e : Editor) : Z := int64 (offsetY (pos e) + sy (pos e)).

(** Number of tab characters of a line, for stating the properties. *)
Definition tabCount (line : list rune) : Z :=
  Z.of_nat (length (filter (fun c => c = TAB) line)).

End Ed.

(** ** Properties of the line store and of the coordinate conversions *)

Module EdProps.
Import GoInt GoStrings Ed.

Lemma tabCount_nil : tabCount [] = 0.
Proof. reflexivity. Qed.

Lemma tabCount_cons c line :
  tabCount (c :: line) = (if c =? TAB then 1 else 0) + tabCount line.
Proof.
  unfold tabCount. destruct (Z.eqb_spec c TAB) as [->|Hne].
  - rewrite filter_cons_True by reflexivity. simpl length. lia.
  - rewrite filter_cons_False by assumption. lia.
Qed.

Lemma tabCount_nonneg line : 0 <= tabCount line.
Proof. unfold tabCount. lia. Qed.

(** The counting loop of [CountRune], up to the reduction of every
    increment. *)
Lemma countRunes_tab line counter :
  int64 (countRunes TAB line counter) = int64 (counter + tabCount line).
Proof.
  revert counter. induction line as [|c line IH]; intros counter.
  - simpl. rewrite tabCount_nil. f_equal; lia.
  - simpl countRunes. rewrite IH, tabCount_cons.
    destruct (c =? TAB).
    + rewrite int64_add_l. f_equal; lia.
    + f_equal; lia.
Qed.

(** Replacing invalid runes neither adds nor removes a tab. *)
Lemma toValid_tab c : (toValid c =? TAB) = (c =? TAB).
Proof.
  unfold toValid, validRune, RuneError, TAB.
  destruct (Z.leb_spec 0 c), (Z.leb_spec c 1114111), (Z.leb_spec 55296 c),
    (Z.leb_spec c 57343); simpl; try reflexivity;
    destruct (Z.eqb_spec c 9); try reflexivity; lia.
Qed.

Lemma tabCount_toValid line : tabCount (map toValid line) = tabCount line.
Proof.
  induction line as [|c line IH]; [reflexivity|].
  cbn [map]. rewrite !tabCount_cons, toValid_tab, IH. reflexivity.
Qed.

Lemma Line_linesAt e n : Line e n = map toValid (linesAt e n).
Proof. unfold Line, linesAt. destruct (lines e !! n); reflexivity. Qed.

Lemma CountRune_tab e n :
  int64 (CountRune e TAB n) = int64 (tabCount (Line e n)).
Proof.
  rewrite Line_linesAt, tabCount_toValid.
  unfold CountRune, linesAt. destruct (lines e !! n) as [line|].
  - rewrite countRunes_tab. f_equal.
  - reflexivity.
Qed.

(** [LastScreenPosition] is the expanded width minus one, computed modulo
    the word size. *)
Lemma LastScreenPosition_wrapped e n :
  LastScreenPosition e n =
  int64 (RuneCountInString (Line e n) - 1
         + tabCount (Line e n) * (PerTab (indentation e) - 1)).
Proof.
  unfold LastScreenPosition, LastDataPosition.
  rewrite int64_add_l, int64_mul_r.
  rewrite <- int64_mul_l, CountRune_tab, int64_mul_l, int64_add_r.
  reflexivity.
Qed.

(** C3.  For every line [L] (line [n] of the editor) and tab width [t], the
    expanded screen width of [L] -- one more than [LastScreenPosition] --
    is the code-point count of [L] plus the number of tabs in [L] times
    [t - 1], whenever the last screen position is representable as an
    [int]. *)
Theorem screen_width_formula (e : Editor) (n : Z) :
  inInt (RuneCountInString (Line e n) - 1
         + tabCount (Line e n) * (PerTab (indentation e) - 1)) ->
  LastScreenPosition e n + 1 =
  RuneCountInString (Line e n)
  + tabCount (Line e n) * (PerTab (indentation e) - 1).
Proof.
  intros Hrange. rewrite LastScreenPosition_wrapped, int64_id by assumption. lia.
Qed.

(** *** [DataX] *)

Lemma tabCount_zero_cons c line :
  tabCount (c :: line) = 0 -> (c =? TAB) = false /\ tabCount line = 0.
Proof.
  rewrite tabCount_cons. pose proof (tabCount_nonneg line).
  destruct (c =? TAB); split; (reflexivity || lia).
Qed.

(** On a line without tabs both counters of the loop advance together. *)
Lemma dataXLoop_found perTab line : forall i target,
  tabCount line = 0 -> minInt <= i -> target <= maxInt ->
  i <= target < i + Z.of_nat (length line) ->
  dataXLoop target perTab line i i = (target, None).
Proof.
  induction line as [|r line IH]; intros i target Htabs Hi Ht Hcol.
  - simpl in Hcol. lia.
  - apply tabCount_zero_cons in Htabs as [Hr Htabs].
    cbn [length] in Hcol. rewrite Nat2Z.inj_succ in Hcol.
    simpl dataXLoop. rewrite Hr.
    destruct (Z.eqb_spec i target) as [->|Hne]; [reflexivity|].
    rewrite int64_id by (unfold inInt; lia).
    apply IH; try assumption; lia.
Qed.

Lemma dataXLoop_after perTab line : forall i target,
  tabCount line = 0 -> minInt <= i -> target <= maxInt ->
  i + Z.of_nat (length line) <= target ->
  dataXLoop target perTab line i i =
  (i + Z.of_nat (length line), Some ErrPositionAfterData).
Proof.
  induction line as [|r line IH]; intros i target Htabs Hi Ht Hcol.
  - simpl. f_equal. lia.
  - apply tabCount_zero_cons in Htabs as [Hr Htabs].
    cbn [length] in *. rewrite Nat2Z.inj_succ in *.
    simpl dataXLoop. rewrite Hr.
    destruct (Z.eqb_spec i target) as [->|Hne]; [lia|].
    rewrite int64_id by (unfold inInt; lia).
    rewrite IH by (try assumption; lia).
    f_equal. lia.
Qed.

(** With a tab width that is not negative, no column beyond the expanded
    width of the line is reached, tabs or not. *)
Lemma dataXLoop_beyond perTab line : forall sc rc target,
  0 <= perTab -> minInt <= sc -> target <= maxInt ->
  sc + (Z.of_nat (length line) + tabCount line * (perTab - 1)) < target ->
  snd (dataXLoop target perTab line sc rc) = Some ErrPositionAfterData.
Proof.
  induction line as [|r line IH]; intros sc rc target Hp Hsc Ht Hcol.
  - reflexivity.
  - cbn [length] in Hcol. rewrite Nat2Z.inj_succ, tabCount_cons in Hcol.
    pose proof (tabCount_nonneg line) as Hn.
    assert (0 <= Z.of_nat (length line) + tabCount line * (perTab - 1)) as Hw.
    { pose proof (tabCount_cons r line) as Hc.
      assert (tabCount line <= Z.of_nat (length line)).
      { unfold tabCount. pose proof (length_filter (fun c => c = TAB) line). lia. }
      nia. }
    simpl dataXLoop.
    destruct (Z.eqb_spec sc target) as [->|Hne].
    { destruct (r =? TAB); lia. }
    destruct (r =? TAB).
    + rewrite int64_id by (unfold inInt; lia). apply IH; lia.
    + rewrite int64_id by (unfold inInt; lia). apply IH; lia.
Qed.

Lemma int64_bounds z : minInt <= int64 z <= maxInt.
Proof. apply int64_range. Qed.

(** C4 (amended).  On a line [L] without tab characters, [DataX] succeeds
    and returns the column itself for every column [0 <= col < len(L)]; for
    every column [col >= len(L)] -- the position just past the end of the
    line included -- it returns [len(L)] together with the "position is
    after data" error. *)
Theorem DataX_without_tabs (e : Editor) :
  tabCount (linesAt e (DataY e)) = 0 ->
  (0 <= int64 (sx (pos e) + offsetX (pos e)) < Z.of_nat (length (linesAt e (DataY e))) ->
   DataX e = (int64 (sx (pos e) + offsetX (pos e)), None)) /\
  (Z.of_nat (length (linesAt e (DataY e))) <= int64 (sx (pos e) + offsetX (pos e)) ->
   DataX e = (Z.of_nat (length (linesAt e (DataY e))), Some ErrPositionAfterData)).
Proof.
  intros Htabs. unfold DataX. fold (DataY e).
  pose proof (int64_bounds (sx (pos e) + offsetX (pos e))) as Hb.
  split; intros Hcol.
  - apply dataXLoop_found; unfold minInt in *; try assumption; lia.
  - rewrite dataXLoop_after; unfold minInt in *; try assumption; try lia.
    reflexivity.
Qed.

(** A column strictly beyond the expanded width of any line signals the
    error, for a tab width that is not negative. *)
Lemma DataX_beyond_width (e : Editor) :
  0 <= PerTab (indentation e) ->
  Z.of_nat (length (linesAt e (DataY e)))
  + tabCount (linesAt e (DataY e)) * (PerTab (indentation e) - 1)
  < int64 (sx (pos e) + offsetX (pos e)) ->
  snd (DataX e) = Some ErrPositionAfterData.
Proof.
  intros Hp Hcol. unfold DataX. fold (DataY e).
  pose proof (int64_bounds (sx (pos e) + offsetX (pos e))) as Hb.
  apply dataXLoop_beyond; unfold minInt in *; try assumption; lia.
Qed.

(** An editor holding [line] at index 0, the cursor at screen column
    [col], four columns per tab. *)
Definition oneLine (line : text) (col : Z) : Editor :=
  {| lines := {[ 0 := line ]};
     searchTerm := [];
     Foreground := 0; Background := 0; SearchHighlight := 0;
     pos := {| sx := col; sy := 0; offsetX := 0; offsetY := 0;
               scrollSpeed := 1; savedX := 0 |};
     indentation := {| PerTab := 4; Spaces := true |};
     mode := OtherMode 0;
     rainbowParenthesis := false;
     syntaxHighlight := false |}.

Lemma screen_width_formula_witness :
  LastScreenPosition (oneLine [97; TAB; 98] 0) 0 + 1 = 3 + 1 * (4 - 1).
Proof.
  apply (screen_width_formula (oneLine [97; TAB; 98] 0) 0).
  vm_compute. split; discriminate.
Defined.

Lemma DataX_without_tabs_witness :
  DataX (oneLine (lit "abc") 1) = (1, None) /\
  DataX (oneLine (lit "abc") 5) = (3, Some ErrPositionAfterData).
Proof.
  split.
  - apply (proj1 (DataX_without_tabs (oneLine (lit "abc") 1) eq_refl)).
    vm_compute. split; [discriminate | reflexivity].
  - apply (proj2 (DataX_without_tabs (oneLine (lit "abc") 5) eq_refl)).
    vm_compute. discriminate.
Defined.

(** C4 as stated fails at the column just past the end of the line: for
    ["abc"] and column 3, which is [<= len(L)], the lookup reports the
    error instead of succeeding. *)
Lemma DataX_end_of_line_counterexample :
  let e := oneLine (lit "abc") 3 in
  tabCount (linesAt e (DataY e)) = 0 /\
  0 <= int64 (sx (pos e) + offsetX (pos e))
    <= Z.of_nat (length (linesAt e (DataY e))) /\
  DataX e = (3, Some ErrPositionAfterData).
Proof. vm_compute. repeat split; discriminate. Qed.

(** *** [Len] *)

(** The fold of [Len] computes the largest key, or 0 when no key is
    positive. *)
Lemma Len_fold (m : gmap Z (list rune)) :
  0 <= map_fold lenStep 0 m /\
  (forall k, is_Some (m !! k) -> k <= map_fold lenStep 0 m) /\
  (map_fold lenStep 0 m = 0 \/ is_Some (m !! map_fold lenStep 0 m)).
Proof.
  apply (map_fold_weak_ind
           (fun r (m : gmap Z (list rune)) =>
              0 <= r /\ (forall k, is_Some (m !! k) -> k <= r)
              /\ (r = 0 \/ is_Some (m !! r)))).
  - split; [lia|]. split; [|left; reflexivity].
    intros k [x Hx]. rewrite lookup_empty in Hx. discriminate.
  - intros i x m' r Hi (H0 & Hmax & Hin). unfold lenStep.
    destruct (Z.gtb_spec i r) as [Hgt|Hle].
    + split; [lia|]. split.
      * intros k [y Hy]. destruct (decide (i = k)) as [->|Hne]; [lia|].
        rewrite lookup_insert_ne in Hy by assumption.
        specialize (Hmax k (ex_intro _ y Hy)). lia.
      * right. rewrite lookup_insert_eq. eexists; reflexivity.
    + split; [lia|]. split.
      * intros k [y Hy]. destruct (decide (i = k)) as [->|Hne]; [lia|].
        rewrite lookup_insert_ne in Hy by assumption.
        exact (Hmax k (ex_intro _ y Hy)).
      * destruct Hin as [->|[y Hy]]; [left; reflexivity|right].
        destruct (decide (i = r)) as [->|Hne].
        -- rewrite lookup_insert_eq. eexists; reflexivity.
        -- rewrite lookup_insert_ne by assumption. eexists; exact Hy.
Qed.

(** C10.  [Len] is one more than the largest line index that holds a line,
    whatever the gaps below it; it is 1 when no line is stored; and it is
    never zero.  Line indices are zero-based [int] values, the largest one
    below [maxInt]. *)
Theorem Len_spec (e : Editor) :
  (forall m,
     is_Some (lines e !! m) ->
     (forall k, is_Some (lines e !! k) -> k <= m) ->
     0 <= m < maxInt ->
     Len e = m + 1) /\
  (lines e = ∅ -> Len e = 1) /\
  ((forall k, is_Some (lines e !! k) -> inInt k) -> Len e <> 0).
Proof.
  unfold Len. destruct (Len_fold (lines e)) as (H0 & Hmax & Hin).
  repeat split.
  - intros m Hm Hlargest Hrange.
    assert (map_fold lenStep 0 (lines e) = m) as ->.
    { specialize (Hmax m Hm). destruct Hin as [Hz|Hin]; [lia|].
      specialize (Hlargest _ Hin). lia. }
    apply int64_id. unfold inInt, minInt, maxInt in *. lia.
  - intros ->. rewrite map_fold_empty. reflexivity.
  - intros Hkeys.
    assert (0 <= map_fold lenStep 0 (lines e) <= maxInt) as Hr.
    { split; [assumption|]. destruct Hin as [->|Hin]; [unfold maxInt; lia|].
      apply Hkeys in Hin. unfold inInt in Hin. lia. }
    unfold int64, maxInt in *. intros Hz.
    assert (2 ^ 64 > 0) as Hpos by lia.
    pose proof (Z_div_mod_eq_full (map_fold lenStep 0 (lines e) + 1 + 2 ^ 63) (2 ^ 64)) as Hd.
    assert ((map_fold lenStep 0 (lines e) + 1 + 2 ^ 63) `div` 2 ^ 64 = 0) as Hq.
    { apply Z.div_small. lia. }
    rewrite Hq in Hd. lia.
Qed.

(** Lines at the indices 0 and 5 only: a store with a gap. *)
Definition gapped : Editor :=
  {| lines := {[ 0 := lit "a"; 5 := lit "b" ]};
     searchTerm := [];
     Foreground := 0; Background := 0; SearchHighlight := 0;
     pos := {| sx := 0; sy := 0; offsetX := 0; offsetY := 0;
               scrollSpeed := 1; savedX := 0 |};
     indentation := {| PerTab := 4; Spaces := true |};
     mode := OtherMode 0;
     rainbowParenthesis := false;
     syntaxHighlight := false |}.

Lemma gapped_keys k : is_Some (lines gapped !! k) -> k = 0 \/ k = 5.
Proof.
  intros [y Hy]. unfold gapped in Hy. cbn [lines] in Hy.
  destruct (decide (k = 0)) as [->|H0]; [left; reflexivity|].
  destruct (decide (k = 5)) as [->|H5]; [right; reflexivity|].
  rewrite lookup_insert_ne, lookup_singleton_ne in Hy by congruence.
  discriminate.
Qed.

Lemma Len_spec_witness : Len gapped = 6 /\ Len gapped <> 0.
Proof.
  split.
  - apply (proj1 (Len_spec gapped) 5).
    + exists (lit "b"). vm_compute. reflexivity.
    + intros k Hk. destruct (gapped_keys k Hk); lia.
    + unfold maxInt. lia.
  - apply (proj2 (proj2 (Len_spec gapped))).
    intros k Hk. unfold inInt, minInt, maxInt.
    destruct (gapped_keys k Hk); lia.
Defined.

End EdProps.

(** ** The lexical predicates and the earlier [WriteLines]

    [SingleLineComment] .. [MultiLineStringStop], the loop that replays the
    lines above the first drawn one, and the update of the flags that the
    draw loop makes for every row. *)

Module Lexical.
Import GoInt GoStrings Ed.

Definition SingleLineComment (trimmedLine singleLineCommentMarker : text)
    (inMultiLineComment inMultiLineString : bool) : bool :=
  (negb inMultiLineComment && negb inMultiLineString)
  && (HasPrefix trimmedLine singleLineCommentMarker
      || (HasPrefix trimmedLine (lit "/*") && HasSuffix trimmedLine (lit "*/"))).

Definition MultiLineCommentStart (trimmedLine : text)
    (inMultiLineComment inMultiLineString inSingleLineComment : bool) : bool :=
  (negb inMultiLineComment && negb inMultiLineString && negb inSingleLineComment)
  && Contains trimmedLine (lit "/*").

Definition MultiLineCommentStop (trimmedLine : text)
    (inMultiLineComment inMultiLineString inSingleLineComment : bool) : bool :=
  (inMultiLineComment && negb inMultiLineString && negb inSingleLineComment)
  && Contains trimmedLine (lit "*/").

(** [(strings.Count(trimmedLine, "`") % 2) != 0]; Go's [%] truncates. *)
Definition oddBackticks (trimmedLine : text) : bool :=
  negb (Z.rem (Count trimmedLine [BACKTICK]) 2 =? 0).

Definition MultiLineStringStart (trimmedLine : text)
    (inMultiLineComment inMultiLineString inSingleLineComment : bool) : bool :=
  (negb inMultiLineComment && negb inMultiLineString && negb inSingleLineComment)
  && oddBackticks trimmedLine.

Definition MultiLineStringStop (trimmedLine : text)
    (inMultiLineComment inMultiLineString inSingleLineComment : bool) : bool :=
  (negb inMultiLineComment && inMultiLineString && negb inSingleLineComment)
  && oddBackticks trimmedLine.

(** The two flags that live across lines. *)
Record LexState := {
  inMultiLineComment : bool;
  inMultiLineString : bool
}.

(** Both flags are declared without a value before the first loop. *)
Definition blank : LexState :=
  {| inMultiLineComment := false; inMultiLineString := false |}.

(** The [switch] of the first loop: the first case that holds is taken. *)
Definition prefixStep (singleLineCommentMarker trimmedLine : text)
    (st : LexState) : LexState :=
  let c := inMultiLineComment st in
  let s := inMultiLineString st in
  if SingleLineComment trimmedLine singleLineCommentMarker c s then st
  else if MultiLineCommentStart trimmedLine c s false
  then {| inMultiLineComment := true; inMultiLineString := s |}
  else if MultiLineCommentStop trimmedLine c s false
  then {| inMultiLineComment := false; inMultiLineString := s |}
  else if MultiLineStringStart trimmedLine c s false
  then {| inMultiLineComment := c; inMultiLineString := true |}
  else if MultiLineStringStop trimmedLine c s false
  then {| inMultiLineComment := c; inMultiLineString := false |}
  else st.

(** [for i := ...; i < ...; i++ { trimmedLine = strings.TrimSpace(e.Line(i)); switch ... }]:
    [n] iterations starting at line [i]. *)
Fixpoint replayLoop (e : Editor) (singleLineCommentMarker : text)
    (i : Z) (n : nat) (st : LexState) : LexState :=
  match n with
  | O => st
  | S n' =>
      replayLoop e singleLineCommentMarker (i + 1) n'
        (prefixStep singleLineCommentMarker (TrimSpace (Line e i)) st)
  end.

(** The first loop of [WriteLines]: lines [0 .. offset - 1] from the blank
    state. *)
Definition replayPrefix (e : Editor) (singleLineCommentMarker : text)
    (offset : Z) : LexState :=
  replayLoop e singleLineCommentMarker 0 (Z.to_nat offset) blank.

(** What the draw loop knows after the flag updates of one row. *)
Record RowFlags := {
  inSingleLineComment : bool;
  rowMultiLineComment : bool;
  rowMultiLineString : bool;
  newlyStartedMultiLineString : bool
}.

(** The comment part of the row update: [inSingleLineComment] is set, then
    the multi-line comment flag is started or stopped. *)
Definition commentUpdate (singleLineCommentMarker trimmedLine : text)
    (st : LexState) : bool * bool :=
  let c := inMultiLineComment st in
  let s := inMultiLineString st in
  let inSingleLineComment :=
    if SingleLineComment trimmedLine singleLineCommentMarker c s then true else false in
  let c' :=
    if MultiLineCommentStart trimmedLine c s inSingleLineComment then true
    else if MultiLineCommentStop trimmedLine c s inSingleLineComment then false
    else c in
  (inSingleLineComment, c').

(** The string part of the row update: stop is tested before start;
    [newlyStartedMultiLineString] was reset to false at the top of the row.
    The result is [(inMultiLineString, newlyStartedMultiLineString)]. *)
Definition stringUpdate (trimmedLine : text)
    (inMultiLineComment inMultiLineString inSingleLineComment : bool) : bool * bool :=
  if MultiLineStringStop trimmedLine inMultiLineComment inMultiLineString inSingleLineComment
  then (false, false)
  else if MultiLineStringStart trimmedLine inMultiLineComment inMultiLineString inSingleLineComment
  then (true, true)
  else (inMultiLineString, false).

(** The flag updates of one drawn row, for the tab-expanded [line]. *)
Definition rowUpdate (singleLineCommentMarker line : text) (st : LexState) : RowFlags :=
  let trimmedLine := TrimSpace line in
  let '(slc, c) := commentUpdate singleLineCommentMarker trimmedLine st in
  let '(s, newly) := stringUpdate trimmedLine c (inMultiLineString st) slc in
  {| inSingleLineComment := slc;
     rowMultiLineComment := c;
     rowMultiLineString := s;
     newlyStartedMultiLineString := newly |}.

(** The flags carried to the next row. *)
Definition carried (r : RowFlags) : LexState :=
  {| inMultiLineComment := rowMultiLineComment r;
     inMultiLineString := rowMultiLineString r |}.

End Lexical.

(** ** Properties of the lexical state machine *)

Module LexicalProps.
Import GoInt GoStrings Ed Lexical.

(** Running [n + m] iterations is running [n] and then [m] more from the
    state and the line reached. *)
Lemma replayLoop_split e marker : forall n m i st,
  replayLoop e marker i (n + m) st =
  replayLoop e marker (i + Z.of_nat n) m (replayLoop e marker i n st).
Proof.
  induction n as [|n IH]; intros m i st.
  - simpl. f_equal. lia.
  - cbn [Nat.add replayLoop]. rewrite IH. f_equal. lia.
Qed.

(** C2.  Replaying the state machine over the trimmed lines [0 .. k] from
    the blank state gives the same state as replaying the lines [0 .. j] and
    then resuming from that state over the lines [j .. k], for all
    [0 <= j <= k]. *)
Theorem replay_resumable (e : Editor) (marker : text) (j k : Z) :
  0 <= j <= k ->
  replayPrefix e marker k =
  replayLoop e marker j (Z.to_nat (k - j)) (replayPrefix e marker j).
Proof.
  intros Hjk. unfold replayPrefix.
  replace (Z.to_nat k) with (Z.to_nat j + Z.to_nat (k - j))%nat by lia.
  rewrite replayLoop_split. f_equal. lia.
Qed.

(** Four lines: a block comment over two lines, then a raw string over two
    lines. *)
Definition fourLines : Editor :=
  {| lines := {[ 0 := lit "/* a"; 1 := lit "b */"; 2 := lit "x := `y"; 3 := lit "z`" ]};
     searchTerm := [];
     Foreground := 0; Background := 0; SearchHighlight := 0;
     pos := {| sx := 0; sy := 0; offsetX := 0; offsetY := 0;
               scrollSpeed := 1; savedX := 0 |};
     indentation := {| PerTab := 4; Spaces := true |};
     mode := OtherMode 0;
     rainbowParenthesis := false;
     syntaxHighlight := true |}.

Lemma replay_resumable_witness :
  replayPrefix fourLines (lit "//") 3 =
  replayLoop fourLines (lit "//") 1 (Z.to_nat (3 - 1)) (replayPrefix fourLines (lit "//") 1).
Proof. apply (replay_resumable fourLines (lit "//") 1 3). lia. Defined.

(** The replay really moves through the states: inside the comment after
    line 0, outside after line 1, inside the string after line 2. *)
Example replay_fourLines :
  replayPrefix fourLines (lit "//") 1 = {| inMultiLineComment := true; inMultiLineString := false |} /\
  replayPrefix fourLines (lit "//") 2 = blank /\
  replayPrefix fourLines (lit "//") 3 = {| inMultiLineComment := false; inMultiLineString := true |} /\
  replayPrefix fourLines (lit "//") 4 = blank.
Proof. vm_compute. repeat split. Qed.

(** C5.  Outside a comment, a multi-line string and a single-line comment,
    a trimmed line with an odd number of backticks starts a multi-line
    string; inside such a string a line with an odd number stops it.  For
    the two rows [`abc] and [def`] (marker [//]) the string is open and newly
    started after the first row, closed and not newly started after the
    second. *)
Theorem backtick_parity_flips_string (trimmedLine : text) :
  oddBackticks trimmedLine = true ->
  MultiLineStringStart trimmedLine false false false = true /\
  MultiLineStringStop trimmedLine false true false = true /\
  stringUpdate trimmedLine false false false = (true, true) /\
  stringUpdate trimmedLine false true false = (false, false) /\
  (let row1 := rowUpdate (lit "//") (lit "`abc") blank in
   let row2 := rowUpdate (lit "//") (lit "def`") (carried row1) in
   rowMultiLineString row1 = true /\ newlyStartedMultiLineString row1 = true /\
   rowMultiLineString row2 = false /\ newlyStartedMultiLineString row2 = false).
Proof.
  intros Hodd.
  unfold stringUpdate, MultiLineStringStart, MultiLineStringStop.
  rewrite Hodd. simpl. repeat split.
Qed.

Lemma backtick_parity_flips_string_witness :
  stringUpdate (lit "`abc") false false false = (true, true) /\
  stringUpdate (lit "def`") false true false = (false, false).
Proof.
  split.
  - apply (backtick_parity_flips_string (lit "`abc")). reflexivity.
  - apply (backtick_parity_flips_string (lit "def`")). reflexivity.
Defined.

(** With an even number of backticks neither predicate holds and the string
    flag is kept. *)
Lemma even_backticks_keep_string trimmedLine c s slc :
  oddBackticks trimmedLine = false ->
  stringUpdate trimmedLine c s slc = (s, false).
Proof.
  intros Heven. unfold stringUpdate, MultiLineStringStart, MultiLineStringStop.
  rewrite Heven, !andb_false_r. reflexivity.
Qed.

End LexicalProps.

(** ** [WriteLines] of [highlight.go] *)

Module Render.
Import GoInt GoStrings Ed.

(** [textoutput.CharAttribute]. *)
Record CharAttribute := { A : AttributeColor; R : rune }.

(** The calls made on the [vt100.Canvas], in order. *)
Inductive CanvasOp :=
| OpWrite (x y : Z) (fg bg : AttributeColor) (s : bytes)
| OpWriteRuneB (x y : Z) (fg bgb : AttributeColor) (r : rune).

(** The errors [WriteLines] returns: its own two, and whatever
    [NewQuoteState] reports. *)
Inductive error :=
| ErrFromlineToline
| ErrUnsupportedUnicode
| ErrQuoteState (msg : text).

(** What [rainbowParen] returns: [nil], [errUnmatchedParenthesis] or
    another error. *)
Inductive rainbowError := rainbowNil | errUnmatchedParenthesis | rainbowOther.

(** The fields of [QuoteState] that [WriteLines] reads or writes; the
    struct is declared outside the modelled files, [rest] stands for what
    else it holds. *)
Record QuoteState {Rest : Type} := {
  singleLineComment : bool;
  startedMultiLineString : bool;
  stoppedMultiLineComment : bool;
  containsMultiLineComments : bool;
  multiLineComment : bool;
  backtick : Z;
  doubleQuote : Z;
  singleQuote : Z;
  parCount : Z;
  braCount : Z;
  rest : Rest
}.
Arguments QuoteState : clear implicits.

(** [q.singleQuote = 0]. *)
Definition resetSingleQuote {Rest} (q : QuoteState Rest) : QuoteState Rest :=
  {| singleLineComment := singleLineComment q;
     startedMultiLineString := startedMultiLineString q;
     stoppedMultiLineComment := stoppedMultiLineComment q;
     containsMultiLineComments := containsMultiLineComments q;
     multiLineComment := multiLineComment q;
     backtick := backtick q;
     doubleQuote := doubleQuote q;
     singleQuote := 0;
     parCount := parCount q;
     braCount := braCount q;
     rest := rest q |}.

(** [q.parCount = 0; q.braCount = 0]. *)
Definition resetParBra {Rest} (q : QuoteState Rest) : QuoteState Rest :=
  {| singleLineComment := singleLineComment q;
     startedMultiLineString := startedMultiLineString q;
     stoppedMultiLineComment := stoppedMultiLineComment q;
     containsMultiLineComments := containsMultiLineComments q;
     multiLineComment := multiLineComment q;
     backtick := backtick q;
     doubleQuote := doubleQuote q;
     singleQuote := singleQuote q;
     parCount := 0;
     braCount := 0;
     rest := rest q |}.

(** The assignments of the ViM case of the first loop. *)
Definition vimComment {Rest} (q : QuoteState Rest) : QuoteState Rest :=
  {| singleLineComment := true;
     startedMultiLineString := false;
     stoppedMultiLineComment := false;
     containsMultiLineComments := containsMultiLineComments q;
     multiLineComment := multiLineComment q;
     backtick := 0;
     doubleQuote := 0;
     singleQuote := 0;
     parCount := parCount q;
     braCount := braCount q;
     rest := rest q |}.

(** What [WriteLines] calls and this repository's modelled files do not
    define: the environment switch, the theme's color functions, the
    [QuoteState] methods, [rainbowParen], the [syntax] and [textoutput]
    packages, the per-mode highlighters and the [unicode] tables. *)
Record Collaborators {Rest : Type} := {
  envNoColor : bool;
  BackgroundCode : AttributeColor -> AttributeColor;
  SingleLineCommentMarker : Editor -> text;
  NewQuoteState : text -> Mode -> bool -> QuoteState Rest + text;
  Process : QuoteState Rest -> text -> QuoteState Rest;
  QNone : QuoteState Rest -> bool;
  ParBraCount : QuoteState Rest -> text -> Z * Z;
  rainbowParen : Editor -> Z -> Z -> list CharAttribute -> text -> bool ->
                 list CharAttribute * rainbowError;
  AsText : text -> Mode -> option text;
  Escape : text -> text;
  UnEscape : text -> text;
  DarkTags : text -> text;
  Extract : text -> list CharAttribute;
  gitHighlight : Editor -> text -> text;
  manPageHighlight : Editor -> text -> text -> bool -> bool -> option text;
  markdownHighlight : Editor -> text -> bool -> bool -> bool -> bool ->
                      (text * bool * bool) * bool;
  isListItem : text -> bool;
  MultiLineString_Start : Editor -> text -> text;
  MultiLineString_Get : Editor -> text -> text;
  MultiLineComment_Start : Editor -> text -> text;
  MultiLineComment_Get : Editor -> text -> text;
  arrowColor : text;
  fieldColor : text;
  IsControl : rune -> bool;
  IsLetter : rune -> bool
}.
Arguments Collaborators : clear implicits.

(** [controlRuneReplacement]. *)
Definition controlRuneReplacement : rune := 191.

(** [handleManPageEscape] of [v2/man.go]: a backspace pops the rune before
    it; popping from the empty slice panics ([None]). *)
Fixpoint manPageEscapeLoop (s : text) (lineRunes : list rune) : option text :=
  match s with
  | [] => Some (map toValid lineRunes)
  | r :: s' =>
      if r =? 8 then
        match lineRunes with
        | [] => None
        | _ => manPageEscapeLoop s' (removelast lineRunes)
        end
      else manPageEscapeLoop s' (lineRunes ++ [r])
  end.

Definition handleManPageEscape (s : text) : option text := manPageEscapeLoop s [].

(** [ChopLine] of [v2/editor.go]: both slices are byte slices of the
    string; a negative bound panics ([None]). *)
Definition ChopLine (e : Editor) (line : text) (viewportWidth : Z) : option bytes :=
  let afterOffset :=
    if RuneCountInString line >? offsetX (pos e) then
      if offsetX (pos e) <? 0 then None
      else Some (drop (Z.to_nat (offsetX (pos e))) (encode line))
    else Some [] in
  match afterOffset with
  | None => None
  | Some screenLine =>
      if Z.of_nat (length screenLine) >=? viewportWidth then
        if viewportWidth <? 0 then None
        else Some (take (Z.to_nat viewportWidth) screenLine)
      else Some screenLine
  end.

Section WithCollaborators.
Context {Rest : Type} (X : Collaborators Rest).

(** The sums of [uint] values. *)
Definition uadd (a b : Z) : Z := uint64 (a + b).

(** [UnEscape(tout.DarkTags(string(textWithTags)))]. *)
Definition regular (textWithTags : text) : text :=
  UnEscape X (DarkTags X textWithTags).

(** [arrowReplace], the two replacements in order. *)
Definition arrowReplace (s : text) : text :=
  let s1 := Replace s (lit ">-<") (lit "><off><" ++ arrowColor X ++ lit ">-<") in
  Replace s1 (lit ">" ++ Escape X (lit ">"))
    (lit "><off><" ++ arrowColor X ++ lit ">" ++ Escape X (lit ">")
     ++ lit "<off><" ++ fieldColor X ++ lit ">").

Definition tripleDouble : text := [DQUOTE; DQUOTE; DQUOTE].
Definition tripleSingle : text := lit "'''".

(** The docstring test of the Python mode: the new [inCodeBlock] and
    whether a marker was found. *)
Definition pythonDocstring (trimmedLine : text) (inCodeBlock : bool) : bool * bool :=
  if HasPrefix trimmedLine tripleDouble && HasSuffix trimmedLine tripleDouble
  then (false, true)
  else if HasPrefix trimmedLine tripleSingle && HasSuffix trimmedLine tripleSingle
  then (false, true)
  else if HasPrefix trimmedLine tripleDouble || HasPrefix trimmedLine tripleSingle
  then (negb inCodeBlock, true)
  else if HasSuffix trimmedLine tripleDouble || HasSuffix trimmedLine tripleSingle
  then (false, true)
  else (inCodeBlock, false).

(** [for i := 0; i < n; i++ { s = f i s }] *)
Fixpoint forRange {S : Type} (f : Z -> S -> S) (i : Z) (n : nat) (s : S) : S :=
  match n with
  | O => s
  | S n' => forRange f (i + 1) n' (f i s)
  end.

(** The [switch e.mode] before the draw loop: is [fromline] inside a code
    block (Markdown) or a docstring (Python)? *)
Definition codeBlockBefore (e : Editor) (fromline : Z) : bool :=
  match mode e with
  | Markdown =>
      forRange (fun i inCodeBlock =>
                  let line := Line e i in
                  if HasPrefix line (lit "~~~") || HasPrefix line (lit "```")
                  then negb inCodeBlock else inCodeBlock)
        0 (Z.to_nat fromline) false
  | Python =>
      forRange (fun i inCodeBlock =>
                  fst (pythonDocstring (TrimSpace (Line e i)) inCodeBlock))
        0 (Z.to_nat fromline) false
  | _ => false
  end.

(** One iteration of the loop that brings [q] to the first drawn line. *)
Definition quoteStep (e : Editor) (i : Z) (q : QuoteState Rest) : QuoteState Rest :=
  let trimmedLine := TrimSpace (Line e i) in
  if Mode_eqb (mode e) Vim && HasPrefix trimmedLine [DQUOTE] then vimComment q
  else Process X q trimmedLine.

Definition quoteStateBefore (e : Editor) (offsetY : Z) (q : QuoteState Rest) :
    QuoteState Rest :=
  forRange (quoteStep e) 0 (Z.to_nat offsetY) q.

(** The variables of [WriteLines] that live across rows, the canvas and the
    standard output among them. *)
Record RowState := {
  q : QuoteState Rest;
  inCodeBlock : bool;
  prevLineIsListItem : bool;
  prevPrevLineIsListItem : bool;
  inListItem : bool;
  programName : text;
  expandedRunes : bool;
  canvas : list CanvasOp;
  stdout : list bytes
}.

(** What the [switch e.mode] of a row and the block after it leave behind. *)
Record Colored := {
  coloredString : text;
  trimmedLineAfter : text;
  qAfter : QuoteState Rest;
  inCodeBlockAfter : bool;
  prevLineIsListItemAfter : bool;
  prevPrevLineIsListItemAfter : bool;
  inListItemAfter : bool;
  programNameAfter : text
}.

(** A [Colored] that changes nothing of the row state but the colored line
    and the trimmed line. *)
Definition keep (st : RowState) (colored trimmedLine : text) : Colored :=
  {| coloredString := colored;
     trimmedLineAfter := trimmedLine;
     qAfter := q st;
     inCodeBlockAfter := inCodeBlock st;
     prevLineIsListItemAfter := prevLineIsListItem st;
     prevPrevLineIsListItemAfter := prevPrevLineIsListItem st;
     inListItemAfter := inListItem st;
     programNameAfter := programName st |}.

(** The block [if !doneHighlighting { ... }]: [q.Process] on the trimmed
    line, then the first case that holds.  The result is the colored line,
    the trimmed line and the new [q]. *)
Definition genericHighlight (e : Editor) (singleLineCommentMarker : text)
    (line textWithTags : text) (q0 : QuoteState Rest) : text * text * QuoteState Rest :=
  let trimmedLine := TrimSpace line in
  let q1 := Process X q0 trimmedLine in
  let hasMarker := HasPrefix trimmedLine singleLineCommentMarker in
  let colored :=
    if Mode_eqb (mode e) Python && startedMultiLineString q1
    then UnEscape X (MultiLineString_Get X e line)
    else if negb (multiLineComment q1)
            && (HasPrefix trimmedLine (lit "#if") || HasPrefix trimmedLine (lit "#else")
                || HasPrefix trimmedLine (lit "#elseif") || HasPrefix trimmedLine (lit "#endif")
                || HasPrefix trimmedLine (lit "#define") || HasPrefix trimmedLine (lit "#pragma"))
    then UnEscape X (MultiLineString_Get X e line)
    else if negb hasMarker && HasSuffix trimmedLine (lit "*/")
            && negb (Contains trimmedLine (lit "/*"))
    then UnEscape X (MultiLineComment_Get X e line)
    else if negb hasMarker
            && (LastIndex trimmedLine (lit "/*") >? LastIndex trimmedLine (lit "*/"))
    then regular textWithTags
    else if containsMultiLineComments q1
    then regular textWithTags
    else if negb hasMarker
            && (multiLineComment q1 || stoppedMultiLineComment q1)
            && negb (Contains line (DQUOTE :: lit "/*"))
            && negb (Contains line (lit "*/" ++ [DQUOTE]))
            && negb (HasPrefix trimmedLine (lit "#"))
            && negb (HasPrefix trimmedLine (lit "//"))
    then UnEscape X (MultiLineComment_Get X e line)
    else if singleLineComment q1 || stoppedMultiLineComment q1
    then regular textWithTags
    else if negb (startedMultiLineString q1) && (backtick q1 >? 0)
    then UnEscape X (MultiLineString_Get X e line)
    else if (negb (Mode_eqb (mode e) HTML) && negb (Mode_eqb (mode e) XML))
            && Contains line (lit "->")
    then UnEscape X (DarkTags X (arrowReplace textWithTags))
    else regular textWithTags in
  (colored, trimmedLine, q1).

(** The two-part lines of the Lisp and ViM cases: the code before the
    comment marker is highlighted again, the rest is colored as a comment by
    [comment]; [parts[1]] panics when the separator is missing ([None]). *)
Definition splitHighlight (e : Editor) (line sep textWithTags : text)
    (comment : Editor -> text -> text) : option text :=
  match cutFirst line sep with
  | None => None
  | Some (part0, part1) =>
      match AsText X (Escape X part0) (mode e) with
      | None => Some (regular textWithTags)
      | Some newTextWithTags =>
          Some (UnEscape X (DarkTags X newTextWithTags ++ comment e (sep ++ part1)))
      end
  end.

(** A case of the [switch] that colors a whole line as a comment or string
    when [special] holds and highlights it regularly otherwise. *)
Definition lineOrRegular (special : bool) (colored textWithTags : text) : text :=
  if special then colored else regular textWithTags.

(** [switch e.mode { ... }] of a row: the colored line and row state it
    leaves, and [doneHighlighting].  [trimmedLine] is the line trimmed on
    both sides before the tabs were expanded. *)
Definition modeHighlight (e : Editor) (singleLineCommentMarker : text)
    (y numLinesToDraw : Z) (line trimmedLine textWithTags : text)
    (st : RowState) : option (Colored * bool) :=
  match mode e with
  | Git => Some (keep st (gitHighlight X e line) trimmedLine, true)
  | ManPage =>
      let programName' :=
        if y =? 0 then
          match firstField trimmedLine (fun c => negb (IsLetter X c)) with
          | Some field => field
          | None => programName st
          end
        else programName st in
      match manPageHighlight X e line programName' (y =? 0)
              (int64 (y + 1) =? numLinesToDraw) with
      | None => None
      | Some cs =>
          Some ({| coloredString := cs;
                   trimmedLineAfter := trimmedLine;
                   qAfter := q st;
                   inCodeBlockAfter := inCodeBlock st;
                   prevLineIsListItemAfter := prevLineIsListItem st;
                   prevPrevLineIsListItemAfter := prevPrevLineIsListItem st;
                   inListItemAfter := inListItem st;
                   programNameAfter := programName' |}, true)
      end
  | Markdown =>
      let '((highlighted, ok, codeBlockFound), inListItem') :=
        markdownHighlight X e line (inCodeBlock st) (prevLineIsListItem st)
          (prevPrevLineIsListItem st) (inListItem st) in
      Some ({| coloredString := if ok then highlighted else regular textWithTags;
               trimmedLineAfter := trimmedLine;
               qAfter := q st;
               inCodeBlockAfter :=
                 if ok && codeBlockFound then negb (inCodeBlock st) else inCodeBlock st;
               prevLineIsListItemAfter := isListItem X line;
               prevPrevLineIsListItemAfter := prevLineIsListItem st;
               inListItemAfter := inListItem';
               programNameAfter := programName st |}, true)
  | Python =>
      let trimmedLine' := TrimSpace line in
      let '(inCodeBlock', foundDocstringMarker) :=
        pythonDocstring trimmedLine' (inCodeBlock st) in
      Some ({| coloredString :=
                 lineOrRegular (inCodeBlock' || foundDocstringMarker)
                   (UnEscape X (MultiLineString_Start X e line)) textWithTags;
               trimmedLineAfter := trimmedLine';
               qAfter := q st;
               inCodeBlockAfter := inCodeBlock';
               prevLineIsListItemAfter := prevLineIsListItem st;
               prevPrevLineIsListItemAfter := prevPrevLineIsListItem st;
               inListItemAfter := inListItem st;
               programNameAfter := programName st |}, true)
  | Config | Shell | CMake | JSON =>
      let colored :=
        if negb (HasPrefix trimmedLine singleLineCommentMarker)
           && (Contains trimmedLine (lit "/*") || HasSuffix trimmedLine (lit "*/"))
        then line
        else if HasPrefix trimmedLine (lit "> ")
        then UnEscape X (MultiLineString_Start X e trimmedLine)
        else UnEscape X (DarkTags X
               (Replace (Replace textWithTags (lit "<lightgreen>yes<") (lit "<lightyellow>yes<"))
                  (lit "<lightred>no<") (lit "<lightyellow>no<"))) in
      Some (keep st colored trimmedLine, true)
  | StandardML | OCaml =>
      let trimmedLine' := TrimSpace line in
      Some (keep st
              (lineOrRegular
                 (HasPrefix trimmedLine' (lit "(*") && HasSuffix trimmedLine' (lit "*)"))
                 (UnEscape X (MultiLineComment_Start X e trimmedLine')) textWithTags)
              trimmedLine', true)
  | Zig =>
      let trimmedLine' := TrimSpace line in
      Some (keep st
              (lineOrRegular
                 (HasPrefix trimmedLine' (lit "///") || HasPrefix trimmedLine' (lit "\\"))
                 (UnEscape X (MultiLineString_Start X e trimmedLine')) textWithTags)
              trimmedLine', true)
  | Bat =>
      let trimmedLine' := TrimSpace line in
      Some (keep st
              (lineOrRegular
                 (HasPrefix trimmedLine' (lit "@rem") || HasPrefix trimmedLine' (lit "rem")
                  || HasPrefix trimmedLine' (lit ":"))
                 (UnEscape X (MultiLineComment_Start X e line)) textWithTags)
              trimmedLine', true)
  | SQL | Lua | Haskell | Ada =>
      let trimmedLine' := TrimSpace line in
      Some (keep st
              (lineOrRegular (HasPrefix trimmedLine' (lit "--"))
                 (UnEscape X (MultiLineComment_Start X e line)) textWithTags)
              trimmedLine', true)
  | Amber =>
      let trimmedLine' := TrimSpace line in
      Some (keep st
              (lineOrRegular (HasPrefix trimmedLine' (lit "!!"))
                 (UnEscape X (MultiLineComment_Start X e line)) textWithTags)
              trimmedLine', true)
  | Nroff =>
      let trimmedLine' := TrimSpace line in
      Some (keep st
              (lineOrRegular (HasPrefix trimmedLine' (lit ".\" ++ [DQUOTE]))
                 (UnEscape X (MultiLineComment_Start X e line)) textWithTags)
              trimmedLine', true)
  | Lisp | Clojure =>
      let q' := resetSingleQuote (q st) in
      let trimmedLine' := TrimSpace line in
      let st' :=
        {| coloredString := [];
           trimmedLineAfter := trimmedLine';
           qAfter := q';
           inCodeBlockAfter := inCodeBlock st;
           prevLineIsListItemAfter := prevLineIsListItem st;
           prevPrevLineIsListItemAfter := prevPrevLineIsListItem st;
           inListItemAfter := inListItem st;
           programNameAfter := programName st |} in
      let withColor (c : text) : Colored :=
        {| coloredString := c;
           trimmedLineAfter := trimmedLine';
           qAfter := q';
           inCodeBlockAfter := inCodeBlock st;
           prevLineIsListItemAfter := prevLineIsListItem st;
           prevPrevLineIsListItemAfter := prevPrevLineIsListItem st;
           inListItemAfter := inListItem st;
           programNameAfter := programName st |} in
      if Count trimmedLine' (lit ";;") =? 1 then
        if HasPrefix trimmedLine' (lit ";")
        then Some (withColor (UnEscape X (MultiLineComment_Start X e line)), true)
        else if Count trimmedLine' (lit ";;") =? 1
        then match splitHighlight e line (lit ";;") textWithTags (MultiLineComment_Get X) with
             | None => None
             | Some c => Some (withColor c, true)
             end
        else if Count trimmedLine' (lit ";") =? 1
        then match splitHighlight e line (lit ";") textWithTags (MultiLineComment_Start X) with
             | None => None
             | Some c => Some (withColor c, true)
             end
        else Some (st', true)
      else Some (st', false)
  | Vim =>
      let trimmedLine' := TrimSpace line in
      if Count trimmedLine' [DQUOTE] =? 1 then
        if HasPrefix trimmedLine' [DQUOTE]
        then Some (keep st (UnEscape X (MultiLineComment_Start X e line)) trimmedLine', true)
        else match splitHighlight e line [DQUOTE] textWithTags (MultiLineComment_Start X) with
             | None => None
             | Some c => Some (keep st c trimmedLine', true)
             end
      else Some (keep st [] trimmedLine', false)
  | _ => Some (keep st [] trimmedLine, false)
  end.

(** The colored line of a row: the case of the mode, then the generic
    block when the case left the line to it. *)
Definition colorRow (e : Editor) (singleLineCommentMarker : text)
    (y numLinesToDraw : Z) (line trimmedLine textWithTags : text)
    (st : RowState) : option Colored :=
  match modeHighlight e singleLineCommentMarker y numLinesToDraw line trimmedLine
          textWithTags st with
  | None => None
  | Some (c, true) => Some c
  | Some (c, false) =>
      let '(colored, trimmedLine', q1) :=
        genericHighlight e singleLineCommentMarker line textWithTags (qAfter c) in
      Some {| coloredString := colored;
              trimmedLineAfter := trimmedLine';
              qAfter := q1;
              inCodeBlockAfter := inCodeBlockAfter c;
              prevLineIsListItemAfter := prevLineIsListItemAfter c;
              prevPrevLineIsListItemAfter := prevPrevLineIsListItemAfter c;
              inListItemAfter := inListItemAfter c;
              programNameAfter := programNameAfter c |}
  end.

(** [e.rainbowParenthesis && q.None() && !q.singleLineComment]. *)
Definition rainbowGuard (e : Editor) (q1 : QuoteState Rest) : bool :=
  rainbowParenthesis e && QNone X q1 && negb (singleLineComment q1).

(** The call of [rainbowParen] for a row, with the counts before the line:
    the cells it leaves and the error it returns. *)
Definition rainbowCall (e : Editor) (singleLineCommentMarker : text)
    (ignoreSingleQuotes : bool) (trimmedLine : text) (q1 : QuoteState Rest)
    (runesAndAttributes : list CharAttribute) : list CharAttribute * rainbowError :=
  let '(thisLineParCount, thisLineBraCount) := ParBraCount X q1 trimmedLine in
  let parCountBeforeThisLine := int64 (parCount q1 - thisLineParCount) in
  let braCountBeforeThisLine := int64 (braCount q1 - thisLineBraCount) in
  rainbowParen X e parCountBeforeThisLine braCountBeforeThisLine
    runesAndAttributes singleLineCommentMarker ignoreSingleQuotes.

(** The rainbow parenthesis block: [rainbowParen] is called only when the
    guard holds; on [errUnmatchedParenthesis] both counters of [q] are set
    to zero, any other result leaves [q] as it is. *)
Definition rainbowStage (e : Editor) (singleLineCommentMarker : text)
    (ignoreSingleQuotes : bool) (trimmedLine : text) (q1 : QuoteState Rest)
    (runesAndAttributes : list CharAttribute) :
    list CharAttribute * QuoteState Rest :=
  if rainbowGuard e q1 then
    match rainbowCall e singleLineCommentMarker ignoreSingleQuotes trimmedLine q1
            runesAndAttributes with
    | (colored, errUnmatchedParenthesis) => (colored, resetParBra q1)
    | (colored, _) => (colored, q1)
    end
  else (runesAndAttributes, q1).

(** The inner loop of the search match: does the term start at the head of
    [cells] (the cells from [runeIndex] on)? *)
Fixpoint termAt (term : text) (cells : list CharAttribute) : bool :=
  match term with
  | [] => true
  | t :: term' =>
      match cells with
      | [] => false
      | ra2 :: cells' => if negb (R ra2 =? t) then false else termAt term' cells'
      end
  end.

(** The search term part of the loop body: for the cell at the head of
    [cells], the foreground that stands in [fg] and [matchForAnotherN]
    before it, the foreground and [matchForAnotherN] after it. *)
Definition searchStep (term : text) (highlight : AttributeColor)
    (matchForAnotherN : Z) (cells : list CharAttribute) (fg : AttributeColor) :
    AttributeColor * Z :=
  match cells with
  | [] => (fg, matchForAnotherN)
  | ra :: _ =>
      if matchForAnotherN >? 0 then (highlight, matchForAnotherN - 1)
      else
        match term with
        | first :: _ =>
            if R ra =? first then
              if termAt term cells
              then (highlight, Z.of_nat (length term) - 1)
              else (fg, matchForAnotherN)
            else (fg, matchForAnotherN)
        | [] => (fg, matchForAnotherN)
        end
  end.

(** [if letter == ' ' { fg = e.Foreground }]. *)
Definition spaceForeground (e : Editor) (ra : CharAttribute) : AttributeColor :=
  if R ra =? SPACE then Foreground e else A ra.

(** The counters of a row and the canvas calls made for it so far. *)
Record RowCount := {
  lineRuneCount : Z;
  lineStringCount : Z;
  written : list CanvasOp
}.

(** The end of the loop body: the cell is written to the canvas. *)
Definition writeCell (e : Editor) (tabString : text) (cx cy y cw : Z)
    (bg : AttributeColor) (letter : rune) (fg : AttributeColor)
    (acc : RowCount) : RowCount :=
  if letter =? TAB then
    {| lineRuneCount := uadd (lineRuneCount acc) (uint64 (PerTab (indentation e)));
       lineStringCount := uadd (lineStringCount acc) (uint64 (PerTab (indentation e)));
       written := written acc ++
         [OpWrite (uadd (uint64 cx) (lineRuneCount acc)) (uadd (uint64 cy) (uint64 y))
            fg (Background e) (encode tabString)] |}
  else
    let letter' := if IsControl X letter then controlRuneReplacement else letter in
    let tx := uadd (uint64 cx) (lineRuneCount acc) in
    let ty := uadd (uint64 cy) (uint64 y) in
    if tx <? cw then
      {| lineRuneCount := uadd (lineRuneCount acc) 1;
         lineStringCount := uadd (lineStringCount acc) (uint64 (utf8Len letter'));
         written := written acc ++ [OpWriteRuneB tx ty fg bg letter'] |}
    else acc.

(** [for runeIndex, ra := range runesAndAttributes { ... }]: [cells] are the
    cells from [runeIndex] on. *)
Fixpoint writeLoop (e : Editor) (tabString : text) (cx cy y cw : Z)
    (bg : AttributeColor) (cells : list CharAttribute)
    (skipX matchForAnotherN : Z) (acc : RowCount) : RowCount :=
  match cells with
  | [] => acc
  | ra :: rest =>
      if skipX >? 0
      then writeLoop e tabString cx cy y cw bg rest (skipX - 1) matchForAnotherN acc
      else
        let '(fg, matchForAnotherN') :=
          searchStep (searchTerm e) (SearchHighlight e) matchForAnotherN cells
            (spaceForeground e ra) in
        writeLoop e tabString cx cy y cw bg rest skipX matchForAnotherN'
          (writeCell e tabString cx cy y cw bg (R ra) fg acc)
  end.

(** [for x := lineRuneCount; x < w; x++ { c.WriteRuneB(uint(cx)+x, yp, e.Foreground, bg, ' ') }] *)
Fixpoint padLoop (e : Editor) (cx yp : Z) (bg : AttributeColor) (x : Z) (n : nat) :
    list CanvasOp :=
  match n with
  | O => []
  | S n' =>
      OpWriteRuneB (uadd (uint64 cx) x) yp (Foreground e) bg SPACE
      :: padLoop e cx yp bg (x + 1) n'
  end.

Definition pad (e : Editor) (w cx yp : Z) (bg : AttributeColor) (lineRuneCount : Z) :
    list CanvasOp :=
  padLoop e cx yp bg lineRuneCount (Z.to_nat (w - lineRuneCount)).

(** The counters of a line that was chopped and written as one string. *)
Definition choppedCount (screenLine : bytes) (ops : list CanvasOp) : RowCount :=
  {| lineRuneCount := uadd 0 (uint64 (runeCount screenLine));
     lineStringCount := uadd 0 (uint64 (Z.of_nat (length screenLine)));
     written := ops |}.

(** [runeLengthDiff > 2]. *)
Definition exceedsSlack (c : RowCount) : bool :=
  int64 (int64 (lineStringCount c) - int64 (lineRuneCount c)) >? 2.

(** What a row leaves when its line has been written: the slack test, then
    the blanks up to the width of the canvas. *)
Definition finishRow (e : Editor) (w cx cy y : Z) (bg : AttributeColor)
    (st : RowState) (c : RowCount) (out : list bytes) : RowState :=
  {| q := q st;
     inCodeBlock := inCodeBlock st;
     prevLineIsListItem := prevLineIsListItem st;
     prevPrevLineIsListItem := prevPrevLineIsListItem st;
     inListItem := inListItem st;
     programName := programName st;
     expandedRunes := if exceedsSlack c then true else expandedRunes st;
     canvas := canvas st ++ written c
               ++ pad e w cx (uadd (uint64 cy) (uint64 y)) bg (lineRuneCount c);
     stdout := stdout st ++ out |}.

(** The row state with the variables that the coloring of a row changed. *)
Definition afterColoring (st : RowState) (c : Colored) (q' : QuoteState Rest) : RowState :=
  {| q := q';
     inCodeBlock := inCodeBlockAfter c;
     prevLineIsListItem := prevLineIsListItemAfter c;
     prevPrevLineIsListItem := prevPrevLineIsListItemAfter c;
     inListItem := inListItemAfter c;
     programName := programNameAfter c;
     expandedRunes := expandedRunes st;
     canvas := canvas st;
     stdout := stdout st |}.

(** The body of the draw loop for the row [y], up to the slack test: the
    row state with what the coloring changed, the counters and canvas calls
    of the row, what was printed.  [None] is a panic. *)
Definition rowContents (e : Editor) (tabString : text) (w cx cy : Z)
    (bg : AttributeColor) (singleLineCommentMarker : text)
    (ignoreSingleQuotes : bool) (offsetY numLinesToDraw : Z)
    (y : Z) (st : RowState) : option (RowState * RowCount * list bytes) :=
  let line0 := TrimRightFunc (Line e (int64 (y + offsetY))) IsSpace in
  let trimmedLine := TrimLeftFunc line0 IsSpace in
  let line := Replace line0 [TAB] tabString in
  if syntaxHighlight e && negb (envNoColor X) then
    match AsText X (Escape X line) (mode e) with
    | None =>
        match ChopLine e line (int64 w) with
        | None => None
        | Some screenLine =>
            Some (st, choppedCount screenLine [], [screenLine ++ [10]])
        end
    | Some textWithTags =>
        match colorRow e singleLineCommentMarker y numLinesToDraw line trimmedLine
                textWithTags st with
        | None => None
        | Some c =>
            let '(runesAndAttributes, q') :=
              rainbowStage e singleLineCommentMarker ignoreSingleQuotes
                (trimmedLineAfter c) (qAfter c) (Extract X (coloredString c)) in
            Some (afterColoring st c q',
                  writeLoop e tabString cx cy y w bg runesAndAttributes
                    (offsetX (pos e)) 0
                    {| lineRuneCount := 0; lineStringCount := 0; written := [] |},
                  [])
        end
    end
  else
    match (if Mode_eqb (mode e) ManPage then handleManPageEscape line else Some line) with
    | None => None
    | Some line' =>
        match ChopLine e line' (int64 w) with
        | None => None
        | Some screenLine =>
            Some (st,
                  choppedCount screenLine
                    [OpWrite (uadd (uint64 cx) 0) (uadd (uint64 cy) (uint64 y))
                       (Foreground e) (Background e) screenLine],
                  [])
        end
    end.

(** The whole body: the contents, the slack test and the blanks. *)
Definition drawRow (e : Editor) (tabString : text) (w cx cy : Z)
    (bg : AttributeColor) (singleLineCommentMarker : text)
    (ignoreSingleQuotes : bool) (offsetY numLinesToDraw : Z)
    (y : Z) (st : RowState) : option RowState :=
  match rowContents e tabString w cx cy bg singleLineCommentMarker
          ignoreSingleQuotes offsetY numLinesToDraw y st with
  | None => None
  | Some (st1, count, printed) => Some (finishRow e w cx cy y bg st1 count printed)
  end.

(** [for y := LineIndex(0); y < numLinesToDraw; y++ { ... }]: [n] rows from
    row [y] on; a panic ends it. *)
Fixpoint drawRows (e : Editor) (tabString : text) (w cx cy : Z)
    (bg : AttributeColor) (singleLineCommentMarker : text)
    (ignoreSingleQuotes : bool) (offsetY numLinesToDraw : Z)
    (y : Z) (n : nat) (st : RowState) : option RowState :=
  match n with
  | O => Some st
  | S n' =>
      match drawRow e tabString w cx cy bg singleLineCommentMarker
              ignoreSingleQuotes offsetY numLinesToDraw y st with
      | None => None
      | Some st' =>
          drawRows e tabString w cx cy bg singleLineCommentMarker
            ignoreSingleQuotes offsetY numLinesToDraw (y + 1) n' st'
      end
  end.

(** How a call of [WriteLines] ends: it returns an error or [nil], having
    made [calls] on the canvas and printed [printed]; or it panics. *)
Inductive outcome :=
| Returned (err : option error) (calls : list CanvasOp) (printed : list bytes)
| Panicked.

(** The state at the first row. *)
Definition firstRow (q0 : QuoteState Rest) (inCodeBlock0 : bool) : RowState :=
  {| q := q0;
     inCodeBlock := inCodeBlock0;
     prevLineIsListItem := false;
     prevPrevLineIsListItem := false;
     inListItem := false;
     programName := [];
     expandedRunes := false;
     canvas := [];
     stdout := [] |}.

(** [WriteLines]: [w] is [c.Width()].  The lock around the call is not
    modelled: one call runs at a time. *)
Definition WriteLines (e : Editor) (w : Z) (fromline toline : Z) (cx cy : Z) : outcome :=
  let bg := BackgroundCode X (Background e) in
  match Repeat [SPACE] (PerTab (indentation e)) with
  | None => Panicked
  | Some tabString =>
      if fromline >=? toline then Returned (Some ErrFromlineToline) [] []
      else
        let numLinesToDraw := int64 (toline - fromline) in
        let offsetY := fromline in
        let inCodeBlock0 := codeBlockBefore e fromline in
        let singleLineCommentMarker := SingleLineCommentMarker X e in
        let ignoreSingleQuotes :=
          Mode_eqb (mode e) Lisp || Mode_eqb (mode e) Clojure in
        match NewQuoteState X singleLineCommentMarker (mode e) ignoreSingleQuotes with
        | inr msg => Returned (Some (ErrQuoteState msg)) [] []
        | inl q0 =>
            match drawRows e tabString w cx cy bg singleLineCommentMarker
                    ignoreSingleQuotes offsetY numLinesToDraw 0
                    (Z.to_nat numLinesToDraw)
                    (firstRow (quoteStateBefore e offsetY q0) inCodeBlock0) with
            | None => Panicked
            | Some st =>
                Returned (if expandedRunes st then Some ErrUnsupportedUnicode else None)
                  (canvas st) (stdout st)
            end
        end
  end.

(** *** The search term step on its own

    The loop body of [writeLoop] does three things to a cell: it takes the
    editor's foreground for a space, it lets the search term override the
    foreground, and it writes the cell.  The three are given here as
    separate passes over the cells, to state what each one does;
    [RenderProps.writeLoop_passes] proves that the loop is their
    composition. *)

(** The search term pass: every cell with the foreground that the search
    term part of the loop body gives it. *)
Fixpoint searchCells (term : text) (highlight : AttributeColor)
    (matchForAnotherN : Z) (cells : list CharAttribute) : list CharAttribute :=
  match cells with
  | [] => []
  | ra :: rest =>
      let '(fg, matchForAnotherN') :=
        searchStep term highlight matchForAnotherN cells (A ra) in
      {| A := fg; R := R ra |} :: searchCells term highlight matchForAnotherN' rest
  end.

(** The pass for the spaces. *)
Definition normalizeSpaces (e : Editor) (cells : list CharAttribute) :
    list CharAttribute :=
  map (fun ra => {| A := spaceForeground e ra; R := R ra |}) cells.

(** The pass that writes. *)
Definition writeCells (e : Editor) (tabString : text) (cx cy y cw : Z)
    (bg : AttributeColor) (cells : list CharAttribute) (acc : RowCount) : RowCount :=
  fold_left (fun acc ra => writeCell e tabString cx cy y cw bg (R ra) (A ra) acc)
    cells acc.

(** A canvas call without its foreground. *)
Definition eraseForeground (op : CanvasOp) : CanvasOp :=
  match op with
  | OpWrite x y _ bg s => OpWrite x y 0 bg s
  | OpWriteRuneB x y _ bgb r => OpWriteRuneB x y 0 bgb r
  end.

(** The cell [i] lies inside an instance of the term that the scan from the
    left matched or could have matched: the term starts at some [s] with
    [s <= i < s + len(term)]. *)
Definition insideMatch (term : text) (cells : list CharAttribute) (i : nat) : Prop :=
  exists s : nat,
    (s <= i < s + length term)%nat /\ termAt term (drop s cells) = true.

(** The canvas calls of one drawn row: its cells, then its blanks. *)
Definition rowCalls (e : Editor) (w cx cy : Z) (bg : AttributeColor)
    (row : Z * RowCount) : list CanvasOp :=
  written (snd row)
  ++ pad e w cx (uadd (uint64 cy) (uint64 (fst row))) bg (lineRuneCount (snd row)).

(** The rows that [drawRows] goes through, each with its index and its
    counters, for stating what the loop did. *)
Fixpoint rowsDrawn (e : Editor) (tabString : text) (w cx cy : Z)
    (bg : AttributeColor) (singleLineCommentMarker : text)
    (ignoreSingleQuotes : bool) (offsetY numLinesToDraw : Z)
    (y : Z) (n : nat) (st : RowState) : list (Z * RowCount) :=
  match n with
  | O => []
  | S n' =>
      match rowContents e tabString w cx cy bg singleLineCommentMarker
              ignoreSingleQuotes offsetY numLinesToDraw y st with
      | None => []
      | Some (st1, count, printed) =>
          (y, count)
          :: rowsDrawn e tabString w cx cy bg singleLineCommentMarker
               ignoreSingleQuotes offsetY numLinesToDraw (y + 1) n'
               (finishRow e w cx cy y bg st1 count printed)
      end
  end.

End WithCollaborators.


Definition withRainbowParen {Rest} (X : Collaborators Rest)
    (rp : Editor -> Z -> Z -> list CharAttribute -> text -> bool ->
          list CharAttribute * rainbowError) : Collaborators Rest :=
  {| envNoColor := envNoColor X;
     BackgroundCode := BackgroundCode X;
     SingleLineCommentMarker := SingleLineCommentMarker X;
     NewQuoteState := NewQuoteState X;
     Process := Process X;
     QNone := QNone X;
     ParBraCount := ParBraCount X;
     rainbowParen := rp;
     AsText := AsText X;
     Escape := Escape X;
     UnEscape := UnEscape X;
     DarkTags := DarkTags X;
     Extract := Extract X;
     gitHighlight := gitHighlight X;
     manPageHighlight := manPageHighlight X;
     markdownHighlight := markdownHighlight X;
     isListItem := isListItem X;
     MultiLineString_Start := MultiLineString_Start X;
     MultiLineString_Get := MultiLineString_Get X;
     MultiLineComment_Start := MultiLineComment_Start X;
     MultiLineComment_Get := MultiLineComment_Get X;
     arrowColor := arrowColor X;
     fieldColor := fieldColor X;
     IsControl := IsControl X;
     IsLetter := IsLetter X |}.


End Render.

(** ** Properties of [WriteLines] *)

Module RenderProps.
Import GoInt GoStrings Ed Render.

Section SearchTerm.
Context (term : text) (highlight : AttributeColor).

(** The match looks at the runes only. *)
Lemma termAt_runes : forall t cells cells',
  map R cells = map R cells' -> termAt t cells = termAt t cells'.
Proof.
  induction t as [|c t IH]; intros cells cells' Heq; [reflexivity|].
  destruct cells as [|ra cells], cells' as [|ra' cells']; try discriminate; [reflexivity|].
  cbn [map] in Heq. injection Heq as Hr Hrest.
  cbn [termAt]. rewrite Hr, (IH _ _ Hrest). reflexivity.
Qed.

(** So does the search step, but for the foreground it passes on. *)
Lemma searchStep_runes n cells cells' fg fg' :
  map R cells = map R cells' ->
  snd (searchStep term highlight n cells fg)
  = snd (searchStep term highlight n cells' fg') /\
  (fst (searchStep term highlight n cells fg) = highlight /\
   fst (searchStep term highlight n cells' fg') = highlight
   \/ fst (searchStep term highlight n cells fg) = fg /\
      fst (searchStep term highlight n cells' fg') = fg').
Proof.
  intros Heq. unfold searchStep.
  destruct cells as [|ra cells], cells' as [|ra' cells']; try discriminate.
  { split; [reflexivity | right; split; reflexivity]. }
  rewrite (termAt_runes term _ _ Heq).
  cbn [map] in Heq. injection Heq as Hr _. rewrite Hr.
  destruct (n >? 0); [split; [reflexivity | left; split; reflexivity]|].
  destruct term as [|first rest]; [split; [reflexivity | right; split; reflexivity]|].
  destruct (R ra' =? first); [|split; [reflexivity | right; split; reflexivity]].
  destruct (termAt (first :: rest) (ra' :: cells'));
    (split; [reflexivity|]); [left | right]; split; reflexivity.
Qed.

Lemma searchCells_cons n ra rest :
  searchCells term highlight n (ra :: rest) =
  {| A := fst (searchStep term highlight n (ra :: rest) (A ra)); R := R ra |}
  :: searchCells term highlight
       (snd (searchStep term highlight n (ra :: rest) (A ra))) rest.
Proof.
  cbn [searchCells]. destruct (searchStep term highlight n (ra :: rest) (A ra)).
  reflexivity.
Qed.

(** The runes are not touched. *)
Lemma searchCells_runes : forall cells n,
  map R (searchCells term highlight n cells) = map R cells.
Proof.
  induction cells as [|ra rest IH]; intros n; [reflexivity|].
  rewrite searchCells_cons. cbn [map R]. rewrite IH. reflexivity.
Qed.

Lemma searchCells_length cells n :
  length (searchCells term highlight n cells) = length cells.
Proof.
  rewrite <- (length_map R), searchCells_runes, length_map. reflexivity.
Qed.

(** A foreground that the step changed belongs to a cell that is covered
    by the match before it or starts a match itself. *)
Lemma searchCells_foreground : forall cells n i ra ra',
  cells !! i = Some ra ->
  searchCells term highlight n cells !! i = Some ra' ->
  A ra' = A ra \/
  (A ra' = highlight /\ (Z.of_nat i < n \/ insideMatch term cells i)).
Proof.
  induction cells as [|c rest IH]; intros n i ra ra' Hi Hi'; [discriminate|].
  rewrite searchCells_cons in Hi'.
  destruct i as [|i].
  - cbn in Hi, Hi'. injection Hi as <-. injection Hi' as <-. cbn [A].
    unfold searchStep.
    destruct (Z.gtb_spec n 0) as [Hn|Hn]; [right; split; [reflexivity | left; lia]|].
    destruct term as [|first t] eqn:Hterm; [left; reflexivity|].
    destruct (R c =? first); [|left; reflexivity].
    destruct (termAt (first :: t) (c :: rest)) eqn:Hm; [|left; reflexivity].
    right. split; [reflexivity|]. right. exists 0%nat. cbn [length drop].
    split; [lia | exact Hm].
  - cbn [lookup list_lookup] in Hi, Hi'.
    change ((c :: rest) !! S i) with (rest !! i) in Hi.
    change (( _ :: searchCells term highlight
                    (snd (searchStep term highlight n (c :: rest) (A c))) rest) !! S i)
      with (searchCells term highlight
              (snd (searchStep term highlight n (c :: rest) (A c))) rest !! i) in Hi'.
    destruct (IH _ _ _ _ Hi Hi') as [Hsame|[Hhl Hwhy]]; [left; exact Hsame|].
    right. split; [exact Hhl|].
    destruct Hwhy as [Hcov|[s [Hs Hm]]].
    + revert Hcov. unfold searchStep.
      destruct (Z.gtb_spec n 0) as [Hn|Hn]; cbn [snd].
      { intros Hcov. left. lia. }
      destruct term as [|first t] eqn:Hterm; cbn [snd]; [intros; lia|].
      destruct (R c =? first); cbn [snd]; [|intros; lia].
      destruct (termAt (first :: t) (c :: rest)) eqn:Hm; cbn [snd]; [|intros; lia].
      intros Hcov. right. exists 0%nat. cbn [drop]. split; [|exact Hm].
      cbn [length] in *. lia.
    + right. exists (S s). cbn [drop]. split; [lia | exact Hm].
Qed.

(** Applying the step to its own output changes nothing. *)
Lemma searchCells_idempotent_from : forall cells n,
  searchCells term highlight n (searchCells term highlight n cells)
  = searchCells term highlight n cells.
Proof.
  induction cells as [|ra rest IH]; intros n; [reflexivity|].
  rewrite (searchCells_cons n ra rest).
  set (out := searchCells term highlight
                (snd (searchStep term highlight n (ra :: rest) (A ra))) rest).
  rewrite searchCells_cons. cbn [A R].
  assert (map R ({| A := fst (searchStep term highlight n (ra :: rest) (A ra));
                    R := R ra |} :: out) = map R (ra :: rest)) as Hrunes.
  { cbn [map R]. unfold out. rewrite searchCells_runes. reflexivity. }
  destruct (searchStep_runes n _ _
              (fst (searchStep term highlight n (ra :: rest) (A ra))) (A ra) Hrunes)
    as [Hn Hfg].
  subst out. rewrite Hn, IH. f_equal. f_equal.
  destruct Hfg as [[H1 H2]|[H1 H2]]; congruence.
Qed.

End SearchTerm.

Section SearchInTheLoop.
Context {Rest : Type} (X : Collaborators Rest).
Context (e : Editor) (tabString : text) (cx cy y cw : Z) (bg : AttributeColor).

Lemma searchStep_same term highlight n cells cells' fg :
  map R cells = map R cells' ->
  searchStep term highlight n cells fg = searchStep term highlight n cells' fg.
Proof.
  intros Heq.
  destruct (searchStep_runes term highlight n cells cells' fg fg Heq) as [Hn Hfg].
  destruct (searchStep term highlight n cells fg) as [f1 n1],
           (searchStep term highlight n cells' fg) as [f2 n2].
  cbn [fst snd] in *. destruct Hfg as [[-> ->]|[-> ->]]; congruence.
Qed.

Lemma normalizeSpaces_runes cells : map R (normalizeSpaces e cells) = map R cells.
Proof.
  unfold normalizeSpaces. rewrite map_map. reflexivity.
Qed.

(** Without cells left to skip, the loop is the three passes in a row. *)
Lemma writeLoop_no_skip : forall cells skipX n acc,
  skipX <= 0 ->
  writeLoop X e tabString cx cy y cw bg cells skipX n acc =
  writeCells X e tabString cx cy y cw bg
    (searchCells (searchTerm e) (SearchHighlight e) n (normalizeSpaces e cells)) acc.
Proof.
  induction cells as [|ra rest IH]; intros skipX n acc Hskip; [reflexivity|].
  cbn [writeLoop]. destruct (Z.gtb_spec skipX 0) as [Hpos|_]; [lia|].
  change (normalizeSpaces e (ra :: rest))
    with ({| A := spaceForeground e ra; R := R ra |} :: normalizeSpaces e rest).
  rewrite searchCells_cons. cbn [A R].
  rewrite (searchStep_same _ _ n
             ({| A := spaceForeground e ra; R := R ra |} :: normalizeSpaces e rest)
             (ra :: rest) (spaceForeground e ra))
    by (cbn [map R]; rewrite normalizeSpaces_runes; reflexivity).
  destruct (searchStep (searchTerm e) (SearchHighlight e) n (ra :: rest)
              (spaceForeground e ra)) as [fg n'].
  cbn [fst snd]. unfold writeCells. cbn [fold_left A R].
  rewrite IH by assumption. reflexivity.
Qed.

(** The cells that the horizontal scroll skips take no part. *)
Lemma writeLoop_skip : forall cells skipX n acc,
  writeLoop X e tabString cx cy y cw bg cells skipX n acc =
  writeLoop X e tabString cx cy y cw bg (drop (Z.to_nat skipX) cells) 0 n acc.
Proof.
  induction cells as [|ra rest IH]; intros skipX n acc.
  - rewrite drop_nil. reflexivity.
  - destruct (Z.gtb_spec skipX 0) as [Hpos|Hle].
    + cbn [writeLoop]. destruct (Z.gtb_spec skipX 0) as [_|Hle]; [|lia].
      rewrite IH.
      replace (Z.to_nat skipX) with (S (Z.to_nat (skipX - 1))) by lia.
      reflexivity.
    + replace (Z.to_nat skipX) with 0%nat by lia. rewrite drop_0.
      rewrite !writeLoop_no_skip by lia. reflexivity.
Qed.

(** [writeLoop] is the composition of the passes: drop the scrolled cells,
    take the editor's foreground for spaces, apply the search term, write. *)
Lemma writeLoop_passes cells acc :
  writeLoop X e tabString cx cy y cw bg cells (offsetX (pos e)) 0 acc =
  writeCells X e tabString cx cy y cw bg
    (searchCells (searchTerm e) (SearchHighlight e) 0
       (normalizeSpaces e (drop (Z.to_nat (offsetX (pos e))) cells))) acc.
Proof. rewrite writeLoop_skip, writeLoop_no_skip by lia. reflexivity. Qed.

(** What is written does not depend on the foregrounds but in the
    foreground of each call. *)
Lemma writeCell_foreground letter fg fg' acc acc' :
  lineRuneCount acc = lineRuneCount acc' ->
  lineStringCount acc = lineStringCount acc' ->
  map eraseForeground (written acc) = map eraseForeground (written acc') ->
  let r := writeCell X e tabString cx cy y cw bg letter fg acc in
  let r' := writeCell X e tabString cx cy y cw bg letter fg' acc' in
  lineRuneCount r = lineRuneCount r' /\
  lineStringCount r = lineStringCount r' /\
  map eraseForeground (written r) = map eraseForeground (written r').
Proof.
  intros Hr Hs Hw. unfold writeCell. rewrite <- Hr, <- Hs.
  destruct (letter =? TAB); cbn [lineRuneCount lineStringCount written].
  - rewrite !map_app, Hw. repeat split.
  - destruct (uadd (uint64 cx) (lineRuneCount acc) <? cw);
      cbn [lineRuneCount lineStringCount written].
    + rewrite !map_app, Hw. repeat split.
    + repeat split; assumption.
Qed.

Lemma writeCells_foreground : forall cells cells' acc acc',
  map R cells = map R cells' ->
  lineRuneCount acc = lineRuneCount acc' ->
  lineStringCount acc = lineStringCount acc' ->
  map eraseForeground (written acc) = map eraseForeground (written acc') ->
  let r := writeCells X e tabString cx cy y cw bg cells acc in
  let r' := writeCells X e tabString cx cy y cw bg cells' acc' in
  lineRuneCount r = lineRuneCount r' /\
  lineStringCount r = lineStringCount r' /\
  map eraseForeground (written r) = map eraseForeground (written r').
Proof.
  induction cells as [|ra rest IH]; intros cells' acc acc' Hrunes Hr Hs Hw;
    destruct cells' as [|ra' rest']; try discriminate.
  - repeat split; assumption.
  - cbn [map] in Hrunes. injection Hrunes as Hletter Hrest.
    unfold writeCells. cbn [fold_left]. rewrite Hletter.
    destruct (writeCell_foreground (R ra') (A ra) (A ra') acc acc' Hr Hs Hw)
      as (Hr1 & Hs1 & Hw1).
    exact (IH rest' _ _ Hrest Hr1 Hs1 Hw1).
Qed.

End SearchInTheLoop.

Section SearchClaim.
Context {Rest : Type} (X : Collaborators Rest).

(** The foregrounds that the loop gives to the cells it does not skip:
    spaces first, then the search term. *)
Definition loopColors (e : Editor) (n : Z) (cells : list CharAttribute) :
    list CharAttribute :=
  searchCells (searchTerm e) (SearchHighlight e) n (normalizeSpaces e cells).

(** The two passes together are idempotent as well. *)
Lemma loopColors_idempotent e : forall cells n,
  loopColors e n (loopColors e n cells) = loopColors e n cells.
Proof.
  unfold loopColors.
  induction cells as [|ra rest IH]; intros n; [reflexivity|].
  change (normalizeSpaces e (ra :: rest))
    with ({| A := spaceForeground e ra; R := R ra |} :: normalizeSpaces e rest).
  rewrite searchCells_cons. cbn [A R].
  set (first := searchStep (searchTerm e) (SearchHighlight e) n
                  ({| A := spaceForeground e ra; R := R ra |} :: normalizeSpaces e rest)
                  (spaceForeground e ra)).
  set (out := searchCells (searchTerm e) (SearchHighlight e) (snd first)
                (normalizeSpaces e rest)).
  change (normalizeSpaces e ({| A := fst first; R := R ra |} :: out))
    with ({| A := spaceForeground e {| A := fst first; R := R ra |}; R := R ra |}
          :: normalizeSpaces e out).
  rewrite searchCells_cons. cbn [A R].
  assert (map R ({| A := spaceForeground e {| A := fst first; R := R ra |}; R := R ra |}
                 :: normalizeSpaces e out)
          = map R ({| A := spaceForeground e ra; R := R ra |} :: normalizeSpaces e rest))
    as Hrunes.
  { cbn [map R]. subst out.
    rewrite !normalizeSpaces_runes, searchCells_runes, normalizeSpaces_runes.
    reflexivity. }
  destruct (searchStep_runes (searchTerm e) (SearchHighlight e) n _ _
              (spaceForeground e {| A := fst first; R := R ra |})
              (spaceForeground e ra) Hrunes) as [Hn Hfg].
  fold first in Hn, Hfg. rewrite Hn. subst out. rewrite IH. f_equal. f_equal.
  destruct Hfg as [[H1 H2]|[H1 H2]]; [congruence|].
  rewrite H1, H2. unfold spaceForeground. cbn [A R].
  destruct (R ra =? SPACE); reflexivity.
Qed.

(** C8.  The search term step maps a sequence of colorized cells to cells
    with the same runes; a cell whose foreground it changes has the search
    highlight color and lies inside an instance of the term; applying it
    twice gives what applying it once gives.  In [WriteLines] it acts on the
    cells past the horizontal scroll, after spaces took the editor's
    foreground, and what reaches the canvas differs from the unhighlighted
    cells in foregrounds only: positions, runes and backgrounds are the
    same. *)
Theorem search_highlight_step (e : Editor) (tabString : text) (cx cy y cw : Z)
    (bg : AttributeColor) (cells : list CharAttribute) (acc : RowCount) :
  map R (searchCells (searchTerm e) (SearchHighlight e) 0 cells) = map R cells /\
  (forall i ra ra',
     cells !! i = Some ra ->
     searchCells (searchTerm e) (SearchHighlight e) 0 cells !! i = Some ra' ->
     A ra' <> A ra ->
     A ra' = SearchHighlight e /\ insideMatch (searchTerm e) cells i) /\
  searchCells (searchTerm e) (SearchHighlight e) 0
    (searchCells (searchTerm e) (SearchHighlight e) 0 cells)
  = searchCells (searchTerm e) (SearchHighlight e) 0 cells /\
  writeLoop X e tabString cx cy y cw bg cells (offsetX (pos e)) 0 acc
  = writeCells X e tabString cx cy y cw bg
      (searchCells (searchTerm e) (SearchHighlight e) 0
         (normalizeSpaces e (drop (Z.to_nat (offsetX (pos e))) cells))) acc /\
  map eraseForeground
    (written (writeCells X e tabString cx cy y cw bg
                (searchCells (searchTerm e) (SearchHighlight e) 0 cells) acc))
  = map eraseForeground
      (written (writeCells X e tabString cx cy y cw bg cells acc)).
Proof.
  split; [apply searchCells_runes|].
  split.
  { intros i ra ra' Hi Hi' Hne.
    destruct (searchCells_foreground _ _ _ _ _ _ _ Hi Hi') as [Hsame|[Hhl Hwhy]];
      [contradiction|].
    split; [exact Hhl|]. destruct Hwhy as [Hneg|Hin]; [lia | exact Hin]. }
  split; [apply searchCells_idempotent_from|].
  split; [apply writeLoop_passes|].
  apply writeCells_foreground; try reflexivity. apply searchCells_runes.
Qed.

End SearchClaim.

(** The term [ab] in the cells of [xabab c]: both instances get the
    highlight 7, the other cells keep their color 1. *)
Example search_ab :
  map A (searchCells (lit "ab") 7 0
           (map (fun r => {| A := 1; R := r |}) (lit "xabab c")))
  = [1; 7; 7; 7; 7; 1; 1].
Proof. reflexivity. Qed.

Section Drawing.
Context {Rest : Type} (X : Collaborators Rest).
Context (e : Editor) (tabString : text) (w cx cy : Z) (bg : AttributeColor)
        (marker : text) (ignoreSingleQuotes : bool) (offsetY numLinesToDraw : Z).

Local Abbreviation contents := (rowContents X e tabString w cx cy bg marker
                              ignoreSingleQuotes offsetY numLinesToDraw).
Local Abbreviation row := (drawRow X e tabString w cx cy bg marker
                         ignoreSingleQuotes offsetY numLinesToDraw).
Local Abbreviation rows := (drawRows X e tabString w cx cy bg marker
                          ignoreSingleQuotes offsetY numLinesToDraw).
Local Abbreviation drawn := (rowsDrawn X e tabString w cx cy bg marker
                           ignoreSingleQuotes offsetY numLinesToDraw).

(** The contents of a row touch neither the canvas log, nor the printed
    lines, nor the flag of the slack test: [finishRow] does. *)
Lemma rowContents_keeps y st st1 count printed :
  contents y st = Some (st1, count, printed) ->
  canvas st1 = canvas st /\ stdout st1 = stdout st
  /\ expandedRunes st1 = expandedRunes st.
Proof.
  unfold rowContents. intros H.
  repeat match type of H with
         | context [match ?x with _ => _ end] => destruct x eqn:?
         | context [if ?b then _ else _] => destruct b eqn:?
         end;
    try discriminate; injection H as <- _ _; repeat split.
Qed.

Lemma drawRow_contents y st :
  row y st =
  match contents y st with
  | None => None
  | Some (st1, count, printed) => Some (finishRow e w cx cy y bg st1 count printed)
  end.
Proof. reflexivity. Qed.

(** The loop goes through all the rows in order: when it ends without a
    panic, the canvas has the calls of every row, each followed by its
    blanks, and the flag is set exactly when a row exceeded the slack. *)
Lemma drawRows_all : forall n y st st',
  rows y n st = Some st' ->
  map fst (drawn y n st) = map (fun k => y + Z.of_nat k) (seq 0 n) /\
  canvas st' = canvas st ++ flat_map (rowCalls e w cx cy bg) (drawn y n st) /\
  expandedRunes st' =
    expandedRunes st || existsb (fun r => exceedsSlack (snd r)) (drawn y n st).
Proof.
  induction n as [|n IH]; intros y st st' H.
  - cbn in H. injection H as <-. cbn. rewrite app_nil_r, orb_false_r. repeat split.
  - cbn [drawRows] in H. rewrite drawRow_contents in H. cbn [rowsDrawn].
    destruct (contents y st) as [[[st1 count] printed]|] eqn:Hc; [|discriminate].
    destruct (rowContents_keeps _ _ _ _ _ Hc) as (Hcanvas & _ & Hflag).
    destruct (IH _ _ _ H) as (Hidx & Hcalls & Hexp).
    cbn [map fst flat_map existsb snd seq].
    split; [|split].
    + f_equal; [lia|]. rewrite Hidx, <- seq_shift, map_map.
      apply map_ext. intros k. lia.
    + rewrite Hcalls. cbn [canvas finishRow]. rewrite Hcanvas.
      unfold rowCalls at 2. cbn [fst snd]. rewrite <- !app_assoc. reflexivity.
    + rewrite Hexp. cbn [expandedRunes finishRow]. rewrite Hflag.
      destruct (exceedsSlack count), (expandedRunes st); reflexivity.
Qed.

Lemma drawRows_length : forall n y st st',
  rows y n st = Some st' -> length (drawn y n st) = n.
Proof.
  intros n y st st' H. destruct (drawRows_all _ _ _ _ H) as (Hidx & _).
  rewrite <- (length_map fst), Hidx, length_map, length_seq. reflexivity.
Qed.

(** The blanks of a row reach from its rune count to the width. *)
Lemma padLoop_In yp : forall n x k,
  x <= k < x + Z.of_nat n ->
  In (OpWriteRuneB (uadd (uint64 cx) k) yp (Foreground e) bg SPACE)
     (padLoop e cx yp bg x n).
Proof.
  induction n as [|n IH]; intros x k Hk; [lia|].
  cbn [padLoop]. destruct (Z.eq_dec k x) as [->|Hne]; [left; reflexivity|].
  right. apply IH. lia.
Qed.

Lemma pad_In yp lineRuneCount k :
  lineRuneCount <= k < w ->
  In (OpWriteRuneB (uadd (uint64 cx) k) yp (Foreground e) bg SPACE)
     (pad e w cx yp bg lineRuneCount).
Proof. intros Hk. unfold pad. apply padLoop_In. lia. Qed.

End Drawing.

Section Calls.
Context {Rest : Type} (X : Collaborators Rest).
Context (e : Editor) (w fromline toline cx cy : Z).

(** The tab string of [WriteLines] when [strings.Repeat] does not panic. *)
Definition tabStringOf : text :=
  concat (replicate (Z.to_nat (PerTab (indentation e))) [SPACE]).

(** The locals of [WriteLines] before the loops. *)
Definition markerOf : text := SingleLineCommentMarker X e.
Definition ignoreSingleQuotesOf : bool :=
  Mode_eqb (mode e) Lisp || Mode_eqb (mode e) Clojure.
Definition numLinesOf : Z := int64 (toline - fromline).

(** The rows that the call draws when [NewQuoteState] gave [q0]. *)
Definition rowsOf (q0 : QuoteState Rest) : list (Z * RowCount) :=
  rowsDrawn X e tabStringOf w cx cy (BackgroundCode X (Background e)) markerOf
    ignoreSingleQuotesOf fromline numLinesOf 0 (Z.to_nat numLinesOf)
    (firstRow (quoteStateBefore X e fromline q0) (codeBlockBefore e fromline)).

(** The calls of a run that went through all its rows. *)
Definition callsOf (q0 : QuoteState Rest) : list CanvasOp :=
  flat_map (rowCalls e w cx cy (BackgroundCode X (Background e))) (rowsOf q0).

Lemma Repeat_spaces :
  0 <= PerTab (indentation e) ->
  Repeat [SPACE] (PerTab (indentation e)) = Some tabStringOf.
Proof.
  intros H. unfold Repeat. destruct (Z.ltb_spec (PerTab (indentation e)) 0); [lia|].
  reflexivity.
Qed.

Lemma Repeat_negative :
  PerTab (indentation e) < 0 -> Repeat [SPACE] (PerTab (indentation e)) = None.
Proof.
  intros H. unfold Repeat. destruct (Z.ltb_spec (PerTab (indentation e)) 0); [|lia].
  reflexivity.
Qed.

(** All the ways in which [WriteLines] returns: the range error before
    anything else; the error of [NewQuoteState], before any row; or, after
    all the rows were drawn and padded, the unicode error or [nil] by the
    slack test. *)
Lemma WriteLines_returned err calls printed :
  WriteLines X e w fromline toline cx cy = Returned err calls printed ->
  0 <= PerTab (indentation e) /\
  (fromline >= toline /\ err = Some ErrFromlineToline /\ calls = [] /\ printed = []
   \/ fromline < toline /\
      (exists msg,
         NewQuoteState X markerOf (mode e) ignoreSingleQuotesOf = inr msg
         /\ err = Some (ErrQuoteState msg) /\ calls = [] /\ printed = [])
   \/ fromline < toline /\
      (exists q0,
         NewQuoteState X markerOf (mode e) ignoreSingleQuotesOf = inl q0
         /\ map fst (rowsOf q0)
            = map (fun k => 0 + Z.of_nat k) (seq 0 (Z.to_nat numLinesOf))
         /\ calls = callsOf q0
         /\ err = if existsb (fun r => exceedsSlack (snd r)) (rowsOf q0)
                  then Some ErrUnsupportedUnicode else None)).
Proof.
  unfold WriteLines. intros H.
  destruct (Z.lt_ge_cases (PerTab (indentation e)) 0) as [Hneg|Hpos].
  { rewrite Repeat_negative in H by assumption. discriminate. }
  split; [assumption|].
  rewrite Repeat_spaces in H by assumption.
  destruct (Z.geb_spec fromline toline) as [Hge|Hlt].
  { left. injection H as <- <- <-. repeat split. lia. }
  right.
  fold markerOf ignoreSingleQuotesOf numLinesOf in H.
  destruct (NewQuoteState X markerOf (mode e) ignoreSingleQuotesOf) as [q0|msg] eqn:Hq.
  - right. split; [assumption|]. exists q0. split; [reflexivity|].
    destruct (drawRows X e tabStringOf w cx cy (BackgroundCode X (Background e))
                markerOf ignoreSingleQuotesOf fromline numLinesOf 0
                (Z.to_nat numLinesOf)
                (firstRow (quoteStateBefore X e fromline q0)
                   (codeBlockBefore e fromline))) as [st|] eqn:Hrows;
      [|discriminate].
    injection H as <- <- <-.
    apply drawRows_all in Hrows as (Hidx & Hcalls & Hexp).
    split; [exact Hidx|]. split; [exact Hcalls|].
    fold (rowsOf q0) in Hexp. rewrite Hexp. reflexivity.
  - left. split; [assumption|]. exists msg. injection H as <- <- <-. repeat split.
Qed.

End Calls.

(** *** Stand-ins for the collaborators

    The plainest functions of the right types, to run [WriteLines] on small
    documents: no tags, no escapes, every cell in color 1; the comment
    marker, the constructor of the quote state and the rainbow function are
    left open. *)

Definition blankQuoteState : QuoteState unit :=
  {| singleLineComment := false;
     startedMultiLineString := false;
     stoppedMultiLineComment := false;
     containsMultiLineComments := false;
     multiLineComment := false;
     backtick := 0; doubleQuote := 0; singleQuote := 0;
     parCount := 0; braCount := 0;
     rest := tt |}.

Definition standIn (marker : text)
    (newQuoteState : text -> Mode -> bool -> QuoteState unit + text)
    (rainbow : Editor -> Z -> Z -> list CharAttribute -> text -> bool ->
               list CharAttribute * rainbowError) : Collaborators unit :=
  {| envNoColor := false;
     BackgroundCode := fun c => c;
     SingleLineCommentMarker := fun _ => marker;
     NewQuoteState := newQuoteState;
     Process := fun q _ => q;
     QNone := fun q => negb (multiLineComment q) && negb (backtick q >? 0);
     ParBraCount := fun _ _ => (0, 0);
     rainbowParen := rainbow;
     AsText := fun s _ => Some s;
     Escape := fun s => s;
     UnEscape := fun s => s;
     DarkTags := fun s => s;
     Extract := map (fun r => {| A := 1; R := r |});
     gitHighlight := fun _ s => s;
     manPageHighlight := fun _ s _ _ _ => Some s;
     markdownHighlight := fun _ s _ _ _ inListItem => ((s, false, false), inListItem);
     isListItem := fun _ => false;
     MultiLineString_Start := fun _ s => s;
     MultiLineString_Get := fun _ s => s;
     MultiLineComment_Start := fun _ s => s;
     MultiLineComment_Get := fun _ s => s;
     arrowColor := lit "red";
     fieldColor := lit "blue";
     IsControl := fun r => (r <? 32) || ((127 <=? r) && (r <? 160));
     IsLetter := fun r => ((65 <=? r) && (r <=? 90)) || ((97 <=? r) && (r <=? 122)) |}.

Definition accepting : text -> Mode -> bool -> QuoteState unit + text :=
  fun _ _ _ => inl blankQuoteState.

Definition noRainbow : Editor -> Z -> Z -> list CharAttribute -> text -> bool ->
                       list CharAttribute * rainbowError :=
  fun _ _ _ cells _ _ => (cells, rainbowNil).

Definition unmatched : Editor -> Z -> Z -> list CharAttribute -> text -> bool ->
                       list CharAttribute * rainbowError :=
  fun _ _ _ cells _ _ => (cells, errUnmatchedParenthesis).

(** A document in a C-like mode, highlighted, with rainbow parentheses. *)
Definition document (content : gmap Z (list rune)) : Editor :=
  {| lines := content;
     searchTerm := [];
     Foreground := 2; Background := 3; SearchHighlight := 7;
     pos := {| sx := 0; sy := 0; offsetX := 0; offsetY := 0;
               scrollSpeed := 1; savedX := 0 |};
     indentation := {| PerTab := 4; Spaces := true |};
     mode := OtherMode 0;
     rainbowParenthesis := true;
     syntaxHighlight := true |}.

Section EarlyFailures.
Context {Rest : Type} (X : Collaborators Rest).

(** A negative tab width: [strings.Repeat] panics at the start of the call,
    whatever the range is, and nothing is written. *)
Lemma WriteLines_negative_tab_width (e : Editor) (w fromline toline cx cy : Z) :
  PerTab (indentation e) < 0 ->
  WriteLines X e w fromline toline cx cy = Panicked.
Proof.
  intros Hneg. unfold WriteLines. rewrite Repeat_negative by assumption. reflexivity.
Qed.


End EarlyFailures.

(** Three lines, drawn in a canvas of width 5. *)
Definition threeLines : Editor :=
  document {[ 0 := lit "a(b)"; 1 := lit "// c"; 2 := lit "d" ]}.

(** Two lines, the first of three runes of three bytes each. *)
Definition wideLines : Editor :=
  document {[ 0 := [26085; 26412; 35486]; 1 := lit "ab" ]}.


Section UnsupportedUnicode.
Context {Rest : Type} (X : Collaborators Rest).

(** C9.  A call with a valid range that went past [NewQuoteState] draws
    every row of the range in order, each with its cells and then its
    blanks up to the width of the canvas, whatever the counters say; what
    it returns afterwards is the "unsupported unicode text" error when on
    some row the string count exceeds the rune count by more than 2, and
    [nil] when on no row it does. *)
Theorem unsupported_unicode_after_drawing (e : Editor) (w fromline toline cx cy : Z)
    (q0 : QuoteState Rest) (err : option error) (calls : list CanvasOp)
    (printed : list bytes) :
  fromline < toline ->
  NewQuoteState X (markerOf X e) (mode e) (ignoreSingleQuotesOf e) = inl q0 ->
  WriteLines X e w fromline toline cx cy = Returned err calls printed ->
  map fst (rowsOf X e w fromline toline cx cy q0)
  = map (fun k => 0 + Z.of_nat k) (seq 0 (Z.to_nat (numLinesOf fromline toline))) /\
  calls = callsOf X e w fromline toline cx cy q0 /\
  (forall y count k,
     In (y, count) (rowsOf X e w fromline toline cx cy q0) ->
     lineRuneCount count <= k < w ->
     In (OpWriteRuneB (uadd (uint64 cx) k) (uadd (uint64 cy) (uint64 y))
           (Foreground e) (BackgroundCode X (Background e)) SPACE) calls) /\
  ((exists y count,
      In (y, count) (rowsOf X e w fromline toline cx cy q0)
      /\ exceedsSlack count = true)
   -> err = Some ErrUnsupportedUnicode) /\
  ((forall y count,
      In (y, count) (rowsOf X e w fromline toline cx cy q0)
      -> exceedsSlack count = false)
   -> err = None).
Proof.
  intros Hlt Hq H.
  apply WriteLines_returned in H as (_ & [H|[H|H]]).
  { lia. }
  { destruct H as (_ & msg & Hq' & _). congruence. }
  destruct H as (_ & q0' & Hq' & Hidx & Hcalls & Herr).
  assert (q0' = q0) as -> by congruence.
  split; [exact Hidx|]. split; [exact Hcalls|]. split; [|split].
  - intros y count k Hin Hk. rewrite Hcalls. unfold callsOf.
    apply in_flat_map. exists (y, count). split; [exact Hin|].
    unfold rowCalls. cbn [fst snd]. apply in_or_app. right.
    apply pad_In. exact Hk.
  - intros (y & count & Hin & Hslack). rewrite Herr.
    replace (existsb _ _) with true; [reflexivity|].
    symmetry. apply existsb_exists. exists (y, count). split; assumption.
  - intros Hnone. rewrite Herr.
    destruct (existsb _ _) eqn:Hex; [|reflexivity].
    apply existsb_exists in Hex as ([y count] & Hin & Hslack).
    cbn [snd] in Hslack. rewrite (Hnone _ _ Hin) in Hslack. discriminate.
Qed.

End UnsupportedUnicode.

Lemma unsupported_unicode_after_drawing_witness :
  map fst (rowsOf (standIn (lit "//") accepting noRainbow) wideLines 5 0 2 0 0
             blankQuoteState) = [0; 1] /\
  WriteLines (standIn (lit "//") accepting noRainbow) wideLines 5 0 2 0 0
  = Returned (Some ErrUnsupportedUnicode)
      (callsOf (standIn (lit "//") accepting noRainbow) wideLines 5 0 2 0 0
         blankQuoteState) [].
Proof.
  pose proof (unsupported_unicode_after_drawing
                (standIn (lit "//") accepting noRainbow) wideLines 5 0 2 0 0
                blankQuoteState (Some ErrUnsupportedUnicode)
                (callsOf (standIn (lit "//") accepting noRainbow) wideLines 5 0 2 0 0
                   blankQuoteState) []
                ltac:(lia) eq_refl ltac:(vm_compute; reflexivity)) as (Hrows & _).
  split; [exact Hrows | vm_compute; reflexivity].
Defined.

Section UnmatchedParenthesis.
Context {Rest : Type} (X : Collaborators Rest).

(** The block itself: an unmatched parenthesis zeroes the two counters and
    nothing else of [q]. *)
Lemma rainbowStage_unmatched e marker isq trimmedLine (q1 : QuoteState Rest) cells :
  rainbowGuard X e q1 = true ->
  snd (rainbowCall X e marker isq trimmedLine q1 cells) = errUnmatchedParenthesis ->
  rainbowStage X e marker isq trimmedLine q1 cells
  = (fst (rainbowCall X e marker isq trimmedLine q1 cells), resetParBra q1).
Proof.
  intros Hguard Herr. unfold rainbowStage. rewrite Hguard.
  destruct (rainbowCall X e marker isq trimmedLine q1 cells) as [colored r].
  cbn [fst snd] in *. rewrite Herr. reflexivity.
Qed.

(** C7.  On a row whose colored line goes through the rainbow block (the
    guard holds) and for which [rainbowParen] returns
    [errUnmatchedParenthesis], the row is drawn to its end, [q] enters the
    next row with both counters at zero, and the loop goes on with the
    rows that remain.  The error is not among those that [WriteLines]
    returns: these are the range error, the error of [NewQuoteState], and
    the unicode error of a row that exceeded the slack. *)
Theorem unmatched_parenthesis_absorbed (e : Editor) (tabString : text)
    (w cx cy : Z) (bg : AttributeColor) (marker : text) (isq : bool)
    (offsetY numLinesToDraw y : Z) (st : RowState) (textWithTags : text)
    (c : Colored) :
  syntaxHighlight e && negb (envNoColor X) = true ->
  AsText X (Escape X (Replace (TrimRightFunc (Line e (int64 (y + offsetY))) IsSpace)
                        [TAB] tabString)) (mode e) = Some textWithTags ->
  colorRow X e marker y numLinesToDraw
    (Replace (TrimRightFunc (Line e (int64 (y + offsetY))) IsSpace) [TAB] tabString)
    (TrimLeftFunc (TrimRightFunc (Line e (int64 (y + offsetY))) IsSpace) IsSpace)
    textWithTags st = Some c ->
  rainbowGuard X e (qAfter c) = true ->
  snd (rainbowCall X e marker isq (trimmedLineAfter c) (qAfter c)
         (Extract X (coloredString c))) = errUnmatchedParenthesis ->
  (exists st',
     drawRow X e tabString w cx cy bg marker isq offsetY numLinesToDraw y st = Some st'
     /\ parCount (q st') = 0 /\ braCount (q st') = 0
     /\ q st' = resetParBra (qAfter c)
     /\ forall n,
          drawRows X e tabString w cx cy bg marker isq offsetY numLinesToDraw y (S n) st
          = drawRows X e tabString w cx cy bg marker isq offsetY numLinesToDraw
              (y + 1) n st') /\
  (forall fromline toline err calls printed,
     WriteLines X e w fromline toline cx cy = Returned (Some err) calls printed ->
     err = ErrFromlineToline
     \/ (exists msg, err = ErrQuoteState msg /\
           NewQuoteState X (markerOf X e) (mode e) (ignoreSingleQuotesOf e) = inr msg)
     \/ (err = ErrUnsupportedUnicode /\
         exists q0 row,
           In row (rowsOf X e w fromline toline cx cy q0)
           /\ exceedsSlack (snd row) = true)).
Proof.
  intros Hhl Htext Hcolor Hguard Herr. split.
  - eexists. split; [|split; [|split; [|split]]].
    + unfold drawRow, rowContents. rewrite Hhl, Htext, Hcolor.
      rewrite rainbowStage_unmatched by assumption. reflexivity.
    + reflexivity.
    + reflexivity.
    + reflexivity.
    + intros n. cbn [drawRows]. unfold drawRow, rowContents.
      rewrite Hhl, Htext, Hcolor.
      rewrite rainbowStage_unmatched by assumption. reflexivity.
  - intros fromline toline err calls printed H.
    apply WriteLines_returned in H as (_ & [H|[H|H]]).
    + destruct H as (_ & Herr' & _). left. congruence.
    + destruct H as (_ & msg & Hq & Herr' & _). right. left.
      exists msg. split; congruence.
    + destruct H as (_ & q0 & Hq & _ & _ & Herr'). right. right.
      destruct (existsb _ _) eqn:Hex; [|discriminate].
      injection Herr' as <-. split; [reflexivity|].
      apply existsb_exists in Hex as (row & Hin & Hslack).
      exists q0, row. split; assumption.
Qed.

End UnmatchedParenthesis.

(** The state before the first row of [threeLines], the counters at 3 and 2. *)
Definition openParentheses : RowState (Rest := unit) :=
  firstRow
    {| singleLineComment := false;
       startedMultiLineString := false;
       stoppedMultiLineComment := false;
       containsMultiLineComments := false;
       multiLineComment := false;
       backtick := 0; doubleQuote := 0; singleQuote := 0;
       parCount := 3; braCount := 2;
       rest := tt |} false.

Lemma unmatched_parenthesis_absorbed_witness :
  exists st',
    drawRow (standIn (lit "//") accepting unmatched) threeLines (lit "    ")
      5 0 0 3 (lit "//") false 0 3 0 openParentheses = Some st'
    /\ parCount (q st') = 0 /\ braCount (q st') = 0
    /\ parCount (q openParentheses) = 3.
Proof.
  destruct (unmatched_parenthesis_absorbed (standIn (lit "//") accepting unmatched)
              threeLines (lit "    ") 5 0 0 3 (lit "//") false 0 3 0 openParentheses
              (lit "a(b)")
              (keep openParentheses (lit "a(b)") (lit "a(b)"))
              eq_refl eq_refl eq_refl eq_refl eq_refl)
    as ((st' & Hrow & Hpar & Hbra & _) & _).
  exists st'. repeat split; assumption.
Defined.

Local Abbreviation rainbowFunction :=
  (Editor -> Z -> Z -> list CharAttribute -> text -> bool ->
   list CharAttribute * rainbowError).








Lemma writeLoop_rainbow {Rest : Type} (X : Collaborators Rest) (rp : rainbowFunction) e tabString cx cy y cw bg cells
    skipX n acc :
  writeLoop (withRainbowParen X rp) e tabString cx cy y cw bg cells skipX n acc
  = writeLoop X e tabString cx cy y cw bg cells skipX n acc.
Proof. reflexivity. Qed.










(** When the guard holds the cells that the row writes are the ones that
    [rainbowParen] hands back. *)
Lemma rainbowStage_called {Rest : Type} (X : Collaborators Rest) e marker isq
    trimmedLine (q1 : QuoteState Rest) cells :
  rainbowGuard X e q1 = true ->
  fst (rainbowStage X e marker isq trimmedLine q1 cells)
  = fst (rainbowCall X e marker isq trimmedLine q1 cells).
Proof.
  intros Hguard. unfold rainbowStage. rewrite Hguard.
  destruct (rainbowCall X e marker isq trimmedLine q1 cells) as [colored []];
    reflexivity.
Qed.






(** *** When [WriteLines] does not panic *)

Lemma HasPrefix_app s r sep : HasPrefix s sep = true -> HasPrefix (s ++ r) sep = true.
Proof.
  revert s. induction sep as [|p sep IH]; intros s H; [reflexivity|].
  destruct s as [|c s]; [discriminate|].
  cbn [HasPrefix app] in *. apply andb_true_iff in H as [-> H].
  rewrite (IH _ H). reflexivity.
Qed.

Lemma Contains_cons c s sep : Contains s sep = true -> Contains (c :: s) sep = true.
Proof. intros H. cbn [Contains]. rewrite H. apply orb_true_r. Qed.

Lemma Contains_app s r sep : Contains s sep = true -> Contains (s ++ r) sep = true.
Proof.
  induction s as [|c s IH]; intros H.
  - cbn [Contains] in H. rewrite orb_false_r in H.
    destruct sep; [|discriminate]. destruct r; reflexivity.
  - cbn [Contains] in H. apply orb_true_iff in H as [H|H].
    + change ((c :: s) ++ r) with (c :: (s ++ r)). cbn [Contains].
      change (c :: (s ++ r)) with ((c :: s) ++ r).
      rewrite (HasPrefix_app (c :: s) r sep H). reflexivity.
    + change ((c :: s) ++ r) with (c :: (s ++ r)). apply Contains_cons, IH, H.
Qed.

Lemma Contains_TrimLeftFunc s f sep :
  Contains (TrimLeftFunc s f) sep = true -> Contains s sep = true.
Proof.
  induction s as [|c s IH]; intros H; [exact H|].
  cbn [TrimLeftFunc] in H. destruct (f c); [|exact H].
  apply Contains_cons, IH, H.
Qed.

Lemma TrimLeftFunc_suffix s f : exists d, s = d ++ TrimLeftFunc s f.
Proof.
  induction s as [|c s [d IH]]; [exists []; reflexivity|].
  cbn [TrimLeftFunc]. destruct (f c).
  - exists (c :: d). cbn [app]. f_equal. exact IH.
  - exists []. reflexivity.
Qed.

Lemma Contains_TrimRightFunc s f sep :
  Contains (TrimRightFunc s f) sep = true -> Contains s sep = true.
Proof.
  unfold TrimRightFunc. intros H.
  destruct (TrimLeftFunc_suffix (rev s) f) as [d Hd].
  remember (TrimLeftFunc (rev s) f) as t eqn:Ht. clear Ht.
  assert (s = rev t ++ rev d) as Hs.
  { rewrite <- rev_app_distr, <- Hd, rev_involutive. reflexivity. }
  rewrite Hs. apply Contains_app. exact H.
Qed.

Lemma Contains_TrimSpace s sep :
  Contains (TrimSpace s) sep = true -> Contains s sep = true.
Proof.
  unfold TrimSpace. intros H.
  apply Contains_TrimLeftFunc with (f := IsSpace).
  apply Contains_TrimRightFunc with (f := IsSpace). exact H.
Qed.

Lemma countFrom_Contains sep : forall s skip,
  0 < countFrom skip s sep -> Contains s sep = true.
Proof.
  induction s as [|c s IH]; intros skip H; [cbn in H; lia|].
  cbn [countFrom] in H. destruct skip as [|k].
  - destruct (HasPrefix (c :: s) sep) eqn:Hp.
    + cbn [Contains]. rewrite Hp. reflexivity.
    + apply Contains_cons. exact (IH _ H).
  - apply Contains_cons. exact (IH _ H).
Qed.

Lemma Count_Contains s sep : Count s sep = 1 -> Contains s sep = true.
Proof.
  unfold Count. destruct sep as [|p sep].
  - intros _. destruct s; reflexivity.
  - intros H. apply (countFrom_Contains (p :: sep) s 0%nat). lia.
Qed.

Lemma cutFirst_Contains sep : forall s,
  Contains s sep = true -> cutFirst s sep <> None.
Proof.
  induction s as [|c s IH]; intros H.
  - cbn [Contains] in H. rewrite orb_false_r in H. cbn [cutFirst]. rewrite H.
    discriminate.
  - cbn [cutFirst]. destruct (HasPrefix (c :: s) sep) eqn:Hp; [discriminate|].
    cbn [Contains] in H. rewrite Hp in H. cbn [orb] in H.
    specialize (IH H). destruct (cutFirst s sep) as [[before after]|];
      [discriminate | contradiction].
Qed.

Section NoPanic.
Context {Rest : Type} (X : Collaborators Rest).
Context (e : Editor).
Hypothesis offsetX_nonneg : 0 <= offsetX (pos e).
Hypothesis not_man_page : mode e <> ManPage.

Lemma ChopLine_total line viewportWidth :
  0 <= viewportWidth -> ChopLine e line viewportWidth <> None.
Proof.
  intros Hw. unfold ChopLine.
  destruct (RuneCountInString line >? offsetX (pos e)).
  - destruct (Z.ltb_spec (offsetX (pos e)) 0); [lia|].
    destruct (_ >=? viewportWidth); [|discriminate].
    destruct (Z.ltb_spec viewportWidth 0); [lia | discriminate].
  - destruct (_ >=? viewportWidth); [|discriminate].
    destruct (Z.ltb_spec viewportWidth 0); [lia | discriminate].
Qed.

Lemma splitHighlight_total line trimmed sep textWithTags comment :
  trimmed = TrimSpace line ->
  Count trimmed sep = 1 ->
  splitHighlight X e line sep textWithTags comment <> None.
Proof.
  intros -> Hcount. unfold splitHighlight.
  pose proof (cutFirst_Contains sep line
                (Contains_TrimSpace _ _ (Count_Contains _ _ Hcount))) as Hcut.
  destruct (cutFirst line sep) as [[part0 part1]|]; [|contradiction].
  destruct (AsText X _ (mode e)); discriminate.
Qed.

Lemma colorRow_total marker y numLinesToDraw line trimmedLine textWithTags st :
  colorRow X e marker y numLinesToDraw line trimmedLine textWithTags st <> None.
Proof.
  unfold colorRow.
  assert (modeHighlight X e marker y numLinesToDraw line trimmedLine textWithTags st
          <> None) as Hmode.
  { unfold modeHighlight.
    destruct (mode e) eqn:Hm; try discriminate; try contradiction.
    - destruct (markdownHighlight X e line _ _ _ _) as [[[h ok] found] l]. discriminate.
    - destruct (pythonDocstring _ _). discriminate.
    - destruct (Z.eqb_spec (Count (TrimSpace line) (lit ";;")) 1) as [H1|H1];
        [|discriminate].
      destruct (HasPrefix _ _); [discriminate|].
      pose proof (splitHighlight_total line _ (lit ";;") textWithTags
                    (MultiLineComment_Get X) eq_refl H1) as Hs.
      destruct (splitHighlight X e line (lit ";;") textWithTags _);
        [discriminate | contradiction].
    - destruct (Z.eqb_spec (Count (TrimSpace line) (lit ";;")) 1) as [H1|H1];
        [|discriminate].
      destruct (HasPrefix _ _); [discriminate|].
      pose proof (splitHighlight_total line _ (lit ";;") textWithTags
                    (MultiLineComment_Get X) eq_refl H1) as Hs.
      destruct (splitHighlight X e line (lit ";;") textWithTags _);
        [discriminate | contradiction].
    - destruct (Z.eqb_spec (Count (TrimSpace line) [DQUOTE]) 1) as [H1|H1];
        [|discriminate].
      destruct (HasPrefix _ _); [discriminate|].
      pose proof (splitHighlight_total line _ [DQUOTE] textWithTags
                    (MultiLineComment_Start X) eq_refl H1) as Hs.
      destruct (splitHighlight X e line [DQUOTE] textWithTags _);
        [discriminate | contradiction]. }
  destruct (modeHighlight X e marker y numLinesToDraw line trimmedLine textWithTags st)
    as [[c [|]]|]; [discriminate | | contradiction].
  destruct (genericHighlight X e marker line textWithTags (qAfter c)) as [[a b] d].
  discriminate.
Qed.

Lemma rowContents_total tabString w cx cy bg marker isq offsetY numLinesToDraw y st :
  0 <= int64 w ->
  rowContents X e tabString w cx cy bg marker isq offsetY numLinesToDraw y st <> None.
Proof.
  intros Hw. unfold rowContents.
  destruct (syntaxHighlight e && negb (envNoColor X)).
  - destruct (AsText X _ (mode e)) as [textWithTags|].
    + pose proof (colorRow_total marker y numLinesToDraw
                    (Replace (TrimRightFunc (Line e (int64 (y + offsetY))) IsSpace)
                       [TAB] tabString)
                    (TrimLeftFunc (TrimRightFunc (Line e (int64 (y + offsetY))) IsSpace)
                       IsSpace)
                    textWithTags st) as Hc.
      destruct (colorRow X e marker y numLinesToDraw _ _ textWithTags st) as [c|];
        [|contradiction].
      destruct (rainbowStage X e marker isq _ _ _). discriminate.
    + pose proof (ChopLine_total
                    (Replace (TrimRightFunc (Line e (int64 (y + offsetY))) IsSpace)
                       [TAB] tabString) (int64 w) Hw) as Hchop.
      destruct (ChopLine e _ (int64 w)); [discriminate | contradiction].
  - assert (Mode_eqb (mode e) ManPage = false) as ->.
    { destruct (mode e); try reflexivity. contradiction. }
    pose proof (ChopLine_total
                  (Replace (TrimRightFunc (Line e (int64 (y + offsetY))) IsSpace)
                     [TAB] tabString) (int64 w) Hw) as Hchop.
    destruct (ChopLine e _ (int64 w)); [discriminate | contradiction].
Qed.

Lemma drawRows_total tabString w cx cy bg marker isq offsetY numLinesToDraw :
  0 <= int64 w ->
  forall n y st,
    drawRows X e tabString w cx cy bg marker isq offsetY numLinesToDraw y n st <> None.
Proof.
  intros Hw. induction n as [|n IH]; intros y st; [discriminate|].
  cbn [drawRows]. unfold drawRow.
  pose proof (rowContents_total tabString w cx cy bg marker isq offsetY
                numLinesToDraw y st Hw) as Hrow.
  destruct (rowContents X e tabString w cx cy bg marker isq offsetY numLinesToDraw y st)
    as [[[st1 count] printed]|]; [|contradiction].
  apply IH.
Qed.

(** [WriteLines] returns -- it does not panic -- for a tab width and a
    horizontal scroll that are not negative, a canvas width that fits an
    [int], and a mode other than the man page one (whose escapes are
    handled by code outside [WriteLines]). *)
Lemma WriteLines_returns w fromline toline cx cy :
  0 <= PerTab (indentation e) ->
  0 <= w <= maxInt ->
  exists err calls printed,
    WriteLines X e w fromline toline cx cy = Returned err calls printed.
Proof.
  intros HperTab Hw. unfold WriteLines. rewrite Repeat_spaces by assumption.
  destruct (fromline >=? toline); [eauto|].
  destruct (NewQuoteState X _ (mode e) _) as [q0|msg]; [|eauto].
  assert (0 <= int64 w) as Hw'.
  { rewrite int64_id; [lia|]. unfold inInt, minInt, maxInt in *. lia. }
  pose proof (drawRows_total (tabStringOf e) w cx cy (BackgroundCode X (Background e))
                (SingleLineCommentMarker X e)
                (Mode_eqb (mode e) Lisp || Mode_eqb (mode e) Clojure)
                fromline (int64 (toline - fromline)) Hw'
                (Z.to_nat (int64 (toline - fromline))) 0
                (firstRow (quoteStateBefore X e fromline q0) (codeBlockBefore e fromline)))
    as Hrows.
  destruct (drawRows X e _ w cx cy _ _ _ fromline _ 0 _ _) as [st|]; [eauto|contradiction].
Qed.

End NoPanic.

End RenderProps.
